(** * jira-mcp-server: the dispatcher and the Jira client, verified

    A shallow embedding of [src/schemas.ts], [src/jira-client.ts] and
    [src/index.ts].  The JavaScript built-ins the code relies on
    ([JSON.stringify], [URLSearchParams], string conversion, ...) are
    written out after ECMAScript and the WHATWG URL standard; what belongs to
    the host and to the remote server ([fetch], [JSON.parse], the text of a
    [ZodError]) is a member of the class [Host], so every statement holds
    for every backend and every host. *)

From Stdlib Require Import ZArith QArith List String Ascii Bool Lia.
From Stdlib Require Import Numbers.DecimalString.
Import ListNotations.
Local Open Scope Z_scope.
Local Open Scope string_scope.

Set Implicit Arguments.
Set Warnings "-register-all".

(* ================================================================== *)
(** * JavaScript values and built-ins                                   *)
(* ================================================================== *)

Module Js.

(** A JavaScript number: a finite value (every finite double is a rational)
    or one of the three special values. *)
Inductive number : Type :=
| Fin (q : Q)
| NaN
| PosInf
| NegInf.

(** Values that [JSON.parse] produces.  An object is the list of its own
    properties in enumeration order. *)
Inductive json : Type :=
| JNull
| JBool (b : bool)
| JNum (n : number)
| JStr (s : string)
| JArr (xs : list json)
| JObj (props : list (string * json)).

(** Values the program builds itself: as [json], plus [undefined]. *)
Inductive value : Type :=
| VUndefined
| VNull
| VBool (b : bool)
| VNum (n : number)
| VStr (s : string)
| VArr (xs : list value)
| VObj (props : list (string * value)).

Definition dquote : string := String (ascii_of_nat 34) "".
Definition backslash : string := String (ascii_of_nat 92) "".
Definition newline : string := String (ascii_of_nat 10) "".

(** [Array.prototype.join] on strings. *)
Fixpoint join (sep : string) (xs : list string) : string :=
  match xs with
  | [] => ""
  | [x] => x
  | x :: rest => x ++ sep ++ join sep rest
  end.

(** Property lookup on a property list; [None] is [undefined]. *)
Fixpoint lookup (A : Type) (k : string) (props : list (string * A)) : option A :=
  match props with
  | [] => None
  | (k', v) :: rest => if String.eqb k k' then Some v else lookup k rest
  end.

Definition is_integer (q : Q) : bool :=
  Z.eqb (Z.rem (Qnum q) (Zpos (Qden q))) 0.

Definition string_of_Z (z : Z) : string := NilZero.string_of_int (Z.to_int z).

Definition finite (n : number) : bool :=
  match n with Fin _ => true | _ => false end.

(** ToBoolean. *)
Definition truthy_string (s : string) : bool :=
  match s with "" => false | _ => true end.

Definition truthy (j : json) : bool :=
  match j with
  | JNull => false
  | JBool b => b
  | JNum (Fin q) => negb (Qeq_bool q 0)
  | JNum NaN => false
  | JNum _ => true
  | JStr s => truthy_string s
  | JArr _ | JObj _ => true
  end.

Definition hex_digit (n : N) : ascii :=
  ascii_of_N (if (n <? 10)%N then 48 + n else 87 + n)%N.

Definition HEX_digit (n : N) : ascii :=
  ascii_of_N (if (n <? 10)%N then 48 + n else 55 + n)%N.

(** QuoteJSONString, on the bytes of the UTF-8 text: the quote, the
    backslash and the control characters are escaped, everything else is
    copied. *)
Definition quote_char (c : ascii) : string :=
  let n := N_of_ascii c in
  if (n =? 34)%N then backslash ++ dquote
  else if (n =? 92)%N then backslash ++ backslash
  else if (n =? 8)%N then backslash ++ "b"
  else if (n =? 12)%N then backslash ++ "f"
  else if (n =? 10)%N then backslash ++ "n"
  else if (n =? 13)%N then backslash ++ "r"
  else if (n =? 9)%N then backslash ++ "t"
  else if (n <? 32)%N then
    backslash ++ "u00" ++ String (hex_digit (n / 16)) (String (hex_digit (n mod 16)) "")
  else String c "".

Fixpoint quote_chars (s : string) : string :=
  match s with
  | "" => ""
  | String c rest => quote_char c ++ quote_chars rest
  end.

Definition QuoteJSONString (s : string) : string :=
  dquote ++ quote_chars s ++ dquote.

(** ** [JSON.stringify]

    SerializeJSONProperty in two steps: [to_json] is the value that gets
    written ([undefined] properties are left out, an [undefined] array
    element becomes [null]); [render] writes it, with [gap] the indentation
    unit (empty for the compact form). *)

Fixpoint to_json (v : value) : option json :=
  match v with
  | VUndefined => None
  | VNull => Some JNull
  | VBool b => Some (JBool b)
  | VNum n => Some (JNum n)
  | VStr s => Some (JStr s)
  | VArr xs =>
      Some (JArr (map (fun x => match to_json x with
                                | Some j => j
                                | None => JNull
                                end) xs))
  | VObj props =>
      Some (JObj (flat_map (fun kv => match kv with
                                      | (k, x) => match to_json x with
                                                  | Some j => [(k, j)]
                                                  | None => []
                                                  end
                                      end) props))
  end.

(** All of the values, when there is none missing. *)
Fixpoint sequence (A : Type) (xs : list (option A)) : option (list A) :=
  match xs with
  | [] => Some []
  | Some x :: rest =>
      match sequence rest with
      | Some l => Some (x :: l)
      | None => None
      end
  | None :: _ => None
  end.

Section Render.

(** Number::toString where it is not the plain decimal numeral (a
    non-integer, or an integer beyond 2^53, where not every integer is a
    double): the shortest round-trip digits of the double, left to the
    host. *)
Variable Number_toString_host : Q -> string.

Definition Number_toString (n : number) : string :=
  match n with
  | Fin q =>
      if is_integer q && (Z.abs (Qnum q / Zpos (Qden q)) <=? 2 ^ 53)%Z
      then string_of_Z (Qnum q / Zpos (Qden q))
      else Number_toString_host q
  | NaN => "NaN"
  | PosInf => "Infinity"
  | NegInf => "-Infinity"
  end.

Fixpoint render (gap indent : string) (j : json) : string :=
  match j with
  | JNull => "null"
  | JBool true => "true"
  | JBool false => "false"
  | JNum n => if finite n then Number_toString n else "null"
  | JStr s => QuoteJSONString s
  | JArr xs =>
      let inner := indent ++ gap in
      match map (render gap inner) xs with
      | [] => "[]"
      | parts =>
          if truthy_string gap
          then "[" ++ newline ++ inner
               ++ join ("," ++ newline ++ inner) parts
               ++ newline ++ indent ++ "]"
          else "[" ++ join "," parts ++ "]"
      end
  | JObj props =>
      let inner := indent ++ gap in
      match map (fun kv => match kv with
                           | (k, x) =>
                               QuoteJSONString k ++ ":"
                               ++ (if truthy_string gap then " " else "")
                               ++ render gap inner x
                           end) props with
      | [] => "{}"
      | parts =>
          if truthy_string gap
          then "{" ++ newline ++ inner
               ++ join ("," ++ newline ++ inner) parts
               ++ newline ++ indent ++ "}"
          else "{" ++ join "," parts ++ "}"
      end
  end.

(** [JSON.stringify(v)]; [None] is [undefined]. *)
Definition JSON_stringify (v : value) : option string :=
  option_map (render "" "") (to_json v).

(** [JSON.stringify(j, null, 2)] on a parsed value: always a string. *)
Definition JSON_stringify_2 (j : json) : string :=
  render "  " "" j.

(** ToString; [None] is the [TypeError] of a value that cannot be
    converted.  An array is converted by its [join], where [null] gives the
    empty string.  An object parsed from JSON is converted by its
    [toString]: the inherited one gives ["[object Object]"], but an own
    property of that name is never a function, the inherited [valueOf]
    returns the object itself, and the conversion throws. *)
Fixpoint ToString (j : json) : option string :=
  match j with
  | JNull => Some "null"
  | JBool true => Some "true"
  | JBool false => Some "false"
  | JNum n => Some (Number_toString n)
  | JStr s => Some s
  | JArr xs =>
      option_map (join ",")
        (sequence (map (fun x => match x with
                                 | JNull => Some ""
                                 | _ => ToString x
                                 end) xs))
  | JObj props =>
      match lookup "toString" props with
      | Some _ => None
      | None => Some "[object Object]"
      end
  end.

(** The conversion [Array.prototype.join] applies to an element. *)
Definition join_element (j : json) : option string :=
  match j with
  | JNull => Some ""
  | _ => ToString j
  end.

End Render.

(** A string is held as the bytes of its UTF-8 text, an unpaired
    surrogate as the three bytes the same scheme gives it.  [utf8_width] is
    the number of bytes of the sequence a byte opens. *)
Definition utf8_width (c : ascii) : nat :=
  let n := N_of_ascii c in
  if (n <? 192)%N then 1%nat
  else if (n <? 224)%N then 2%nat
  else if (n <? 240)%N then 3%nat
  else 4%nat.

Definition flush (current : string) : list string :=
  match current with
  | "" => []
  | _ => [current]
  end.

(** The string cut into byte sequences, [pending] bytes being still due
    to the sequence [current]. *)
Fixpoint sequences_from (pending : nat) (current s : string) : list string :=
  match s with
  | "" => flush current
  | String c rest =>
      match pending with
      | O => app (flush current) (sequences_from (utf8_width c - 1) (String c "") rest)
      | S k => sequences_from k (current ++ String c "") rest
      end
  end.

(** The code points of a string, each as a string: what iterating a
    string gives. *)
Definition code_points (s : string) : list string := sequences_from 0 "" s.

Definition byte_at (i : nat) (s : string) : N :=
  match String.get i s with
  | Some c => N_of_ascii c
  | None => 0
  end.

Definition three_bytes (u : N) : string :=
  String (ascii_of_N (224 + u / 4096))
    (String (ascii_of_N (128 + (u / 64) mod 64))
       (String (ascii_of_N (128 + u mod 64)) ""))%N.

(** The UTF-16 code units of a code point: itself, or its two surrogates
    when it takes four bytes. *)
Definition units_of (point : string) : list string :=
  if Nat.eqb (String.length point) 4 then
    let v := ((byte_at 0 point mod 8) * 262144 + (byte_at 1 point mod 64) * 4096
              + (byte_at 2 point mod 64) * 64 + byte_at 3 point mod 64 - 65536)%N in
    [three_bytes (55296 + v / 1024)%N; three_bytes (56320 + v mod 1024)%N]
  else [point].

(** The code units of a string, each as a string: what indexing a string
    gives. *)
Definition code_units (s : string) : list string := flat_map units_of (code_points s).

Fixpoint indexed_from (A : Type) (i : Z) (xs : list A) : list (string * A) :=
  match xs with
  | [] => []
  | x :: rest => (string_of_Z i, x) :: indexed_from (i + 1) rest
  end.

(** [o?.k] on a parsed value: [undefined] on [undefined] and [null], the
    own property of an object, nothing on anything else (no primitive and no
    array has a property of the names used here). *)
Definition get_property (o : option json) (k : string) : option json :=
  match o with
  | Some (JObj props) => lookup k props
  | _ => None
  end.

(** [x || d]. *)
Definition or_else (x : option json) (d : json) : json :=
  match x with
  | Some j => if truthy j then j else d
  | None => d
  end.

(** The iteration behind the spread [...x]: an array gives its elements, a
    string its code points, nothing else is iterable. *)
Definition spread (j : json) : option (list json) :=
  match j with
  | JArr xs => Some xs
  | JStr s => Some (map JStr (code_points s))
  | _ => None
  end.

(** [Object.entries]. *)
Definition Object_entries (j : json) : list (string * json) :=
  match j with
  | JObj props => props
  | JArr xs => indexed_from 0 xs
  | JStr s => indexed_from 0 (map JStr (code_units s))
  | _ => []
  end.

(** ** [URLSearchParams]

    The list of name-value pairs; [toString] is the
    application/x-www-form-urlencoded serializer of the URL standard. *)
Definition URLSearchParams : Type := list (string * string).

Fixpoint URLSearchParams_set (name val : string) (ps : URLSearchParams) : URLSearchParams :=
  match ps with
  | [] => [(name, val)]
  | (n, v) :: rest =>
      if String.eqb n name
      then (n, val) :: filter (fun p => negb (String.eqb (fst p) name)) rest
      else (n, v) :: URLSearchParams_set name val rest
  end.

Definition urlencoded_safe (n : N) : bool :=
  ((48 <=? n) && (n <=? 57) || (65 <=? n) && (n <=? 90) || (97 <=? n) && (n <=? 122)
   || (n =? 42) || (n =? 45) || (n =? 46) || (n =? 95))%N.

Definition urlencode_byte (c : ascii) : string :=
  let n := N_of_ascii c in
  if urlencoded_safe n then String c ""
  else if (n =? 32)%N then "+"
  else String "%" (String (HEX_digit (n / 16)) (String (HEX_digit (n mod 16)) "")).

Fixpoint urlencode (s : string) : string :=
  match s with
  | "" => ""
  | String c rest => urlencode_byte c ++ urlencode rest
  end.

Definition URLSearchParams_toString (ps : URLSearchParams) : string :=
  join "&" (map (fun p => urlencode (fst p) ++ "=" ++ urlencode (snd p)) ps).

(** ** The Fetch API *)

Record Request : Type := {
  method : string;
  url : string;
  headers : list (string * string);
  body : option string
}.

(** A response, with its body already read as text. *)
Record Response : Type := {
  status : Z;
  statusText : string;
  text : string
}.

(** [response.ok]: the status is in the range 200-299. *)
Definition ok (r : Response) : bool :=
  ((200 <=? status r) && (status r <=? 299))%Z.

(** What host code throws: an [Error] object of some class other than the
    program's own, or any other value. *)
Inductive failure : Type :=
| ErrorObject (name message : string)
| Thrown (v : json).

Inductive fetch_outcome : Type :=
| Responded (r : Response)
| Failed (f : failure).

End Js.

(* ================================================================== *)
(** * Zod: the validation library                                       *)
(* ================================================================== *)

Module Zod.
Import Js.

Inductive ZodParsedType : Type :=
| t_string | t_nan | t_number | t_integer | t_float | t_boolean
| t_undefined | t_null | t_array | t_object.

(** [getParsedType]; the input [None] is [undefined]. *)
Definition getParsedType (d : option json) : ZodParsedType :=
  match d with
  | None => t_undefined
  | Some JNull => t_null
  | Some (JBool _) => t_boolean
  | Some (JNum NaN) => t_nan
  | Some (JNum _) => t_number
  | Some (JStr _) => t_string
  | Some (JArr _) => t_array
  | Some (JObj _) => t_object
  end.

Inductive path_item : Type :=
| Key (k : string)
| Index (i : nat).

Definition path : Type := list path_item.

Inductive ZodIssue : Type :=
| invalid_type (expected received : ZodParsedType) (p : path)
| invalid_enum_type (options : list string) (received : ZodParsedType) (p : path)
| invalid_enum_value (options : list string) (received : string) (p : path)
| too_small (minimum : Z) (p : path)
| too_big (maximum : Z) (p : path).

(** The outcome of [_parse]: the issues found (at least one), or the typed
    value. *)
Definition ParseReturn (A : Type) : Type := (list ZodIssue + A)%type.

Definition ZodType (A : Type) : Type := option json -> path -> ParseReturn A.

(** Both parts are parsed and the issues of both are reported. *)
Definition both (A B : Type) (ra : ParseReturn A) (rb : ParseReturn B) : ParseReturn (A * B) :=
  match ra, rb with
  | inr a, inr b => inr (a, b)
  | inl i, inr _ => inl i
  | inr _, inl j => inl j
  | inl i, inl j => inl (i ++ j)%list
  end.

Definition map_return (A B : Type) (f : A -> B) (r : ParseReturn A) : ParseReturn B :=
  match r with
  | inr a => inr (f a)
  | inl i => inl i
  end.

(** [z.string()] *)
Definition z_string : ZodType string :=
  fun d p =>
    match d with
    | Some (JStr s) => inr s
    | _ => inl [invalid_type t_string (getParsedType d) p]
    end.

Inductive number_check : Type :=
| check_int
| check_min (v : Z)
| check_max (v : Z).

Definition Number_isInteger (n : number) : bool :=
  match n with
  | Fin q => is_integer q
  | _ => false
  end.

(** [n < v] and [n > v] on numbers other than NaN. *)
Definition number_lt (n : number) (v : Z) : bool :=
  match n with
  | Fin q => negb (Qle_bool (inject_Z v) q)
  | NegInf => true
  | _ => false
  end.

Definition number_gt (n : number) (v : Z) : bool :=
  match n with
  | Fin q => negb (Qle_bool q (inject_Z v))
  | PosInf => true
  | _ => false
  end.

Definition run_check (n : number) (p : path) (c : number_check) : list ZodIssue :=
  match c with
  | check_int => if Number_isInteger n then [] else [invalid_type t_integer t_float p]
  | check_min v => if number_lt n v then [too_small v p] else []
  | check_max v => if number_gt n v then [too_big v p] else []
  end.

(** [z.number()] followed by its checks; every check is run. *)
Definition z_number (checks : list number_check) : ZodType number :=
  fun d p =>
    match d with
    | Some (JNum NaN) => inl [invalid_type t_number t_nan p]
    | Some (JNum n) =>
        match flat_map (run_check n p) checks with
        | [] => inr n
        | issues => inl issues
        end
    | _ => inl [invalid_type t_number (getParsedType d) p]
    end.

(** [.optional()] *)
Definition z_optional (A : Type) (inner : ZodType A) : ZodType (option A) :=
  fun d p =>
    match d with
    | None => inr None
    | Some _ => map_return (@Some A) (inner d p)
    end.

(** [.default(v)] *)
Definition z_default (A : Type) (v : json) (inner : ZodType A) : ZodType A :=
  fun d p =>
    match d with
    | None => inner (Some v) p
    | Some _ => inner d p
    end.

Fixpoint parse_items (A : Type) (element : ZodType A) (p : path) (i : nat) (xs : list json)
  : ParseReturn (list A) :=
  match xs with
  | [] => inr []
  | x :: rest =>
      map_return (fun ht => fst ht :: snd ht)
        (both (element (Some x) (p ++ [Index i])%list)
              (parse_items element p (S i) rest))
  end.

(** [z.array(element)] *)
Definition z_array (A : Type) (element : ZodType A) : ZodType (list A) :=
  fun d p =>
    match d with
    | Some (JArr xs) => parse_items element p 0 xs
    | _ => inl [invalid_type t_array (getParsedType d) p]
    end.

(** [z.enum(options)] *)
Definition z_enum (options : list string) : ZodType string :=
  fun d p =>
    match d with
    | Some (JStr s) =>
        if existsb (String.eqb s) options then inr s
        else inl [invalid_enum_value options s p]
    | _ => inl [invalid_enum_type options (getParsedType d) p]
    end.

(** The member [key] of a [z.object] shape: parsed on the property of that
    name, [undefined] when the object has none. *)
Definition member (A : Type) (props : list (string * json)) (p : path) (key : string)
  (schema : ZodType A) : ParseReturn A :=
  schema (lookup key props) (p ++ [Key key])%list.

End Zod.

(* ================================================================== *)
(** * src/schemas.ts                                                    *)
(* ================================================================== *)

Module Schemas.
Import Js Zod.

Record SearchIssuesInput : Type := {
  search_jql : string;
  search_maxResults : number;
  search_fields : option (list string)
}.

Record GetIssueInput : Type := {
  get_issueKey : string;
  get_fields : option (list string);
  get_expand : option (list string)
}.

Record CreateIssueInput : Type := {
  create_projectKey : string;
  create_summary : string;
  create_issueType : string;
  create_description : option string;
  create_priority : option string;
  create_assignee : option string;
  create_labels : option (list string);
  create_components : option (list string)
}.

Inductive VisibilityType : Type := group | role.

Record Visibility : Type := {
  visibility_type : VisibilityType;
  visibility_value : string
}.

Record AddCommentInput : Type := {
  comment_issueKey : string;
  comment_body : string;
  comment_visibility : option Visibility
}.

(** The shape of a [z.object] is parsed on an object only; unknown keys
    are stripped. *)
Definition z_object (A : Type) (shape : list (string * json) -> path -> ParseReturn A)
  : ZodType A :=
  fun d p =>
    match d with
    | Some (JObj props) => shape props p
    | _ => inl [invalid_type t_object (getParsedType d) p]
    end.

(** The member [maxResults] of the search schema:
    [z.number().int().min(1).max(100).optional().default(50)].  With the
    default in place the value is never [undefined]. *)
Definition maxResults_schema : ZodType number :=
  z_default (JNum (Fin (inject_Z 50)))
    (fun d q => map_return
       (fun o => match o with Some n => n | None => Fin (inject_Z 50) end)
       (z_optional (z_number [check_int; check_min 1; check_max 100]) d q)).

Definition SearchIssuesSchema : ZodType SearchIssuesInput :=
  z_object (fun props p =>
    map_return
      (fun r => {| search_jql := fst r;
                   search_maxResults := fst (snd r);
                   search_fields := snd (snd r) |})
      (both (member props p "jql" z_string)
      (both (member props p "maxResults" maxResults_schema)
            (member props p "fields" (z_optional (z_array z_string)))))).

Definition GetIssueSchema : ZodType GetIssueInput :=
  z_object (fun props p =>
    map_return
      (fun r => {| get_issueKey := fst r;
                   get_fields := fst (snd r);
                   get_expand := snd (snd r) |})
      (both (member props p "issueKey" z_string)
      (both (member props p "fields" (z_optional (z_array z_string)))
            (member props p "expand" (z_optional (z_array z_string)))))).

Definition CreateIssueSchema : ZodType CreateIssueInput :=
  z_object (fun props p =>
    map_return
      (fun r =>
         match r with
         | (pk, (su, (it, (de, (pr, (asg, (la, co))))))) =>
             {| create_projectKey := pk;
                create_summary := su;
                create_issueType := it;
                create_description := de;
                create_priority := pr;
                create_assignee := asg;
                create_labels := la;
                create_components := co |}
         end)
      (both (member props p "projectKey" z_string)
      (both (member props p "summary" z_string)
      (both (member props p "issueType" z_string)
      (both (member props p "description" (z_optional z_string))
      (both (member props p "priority" (z_optional z_string))
      (both (member props p "assignee" (z_optional z_string))
      (both (member props p "labels" (z_optional (z_array z_string)))
            (member props p "components" (z_optional (z_array z_string))))))))))).

Definition VisibilityType_of_string (s : string) : VisibilityType :=
  if String.eqb s "group" then group else role.

Definition VisibilitySchema : ZodType Visibility :=
  z_object (fun props p =>
    map_return
      (fun r => {| visibility_type := VisibilityType_of_string (fst r);
                   visibility_value := snd r |})
      (both (member props p "type" (z_enum ["group"; "role"]))
            (member props p "value" z_string))).

Definition AddCommentSchema : ZodType AddCommentInput :=
  z_object (fun props p =>
    map_return
      (fun r => {| comment_issueKey := fst r;
                   comment_body := fst (snd r);
                   comment_visibility := snd (snd r) |})
      (both (member props p "issueKey" z_string)
      (both (member props p "body" z_string)
            (member props p "visibility" (z_optional VisibilitySchema))))).

(** [schema.parse(data)]: the typed value, or the issues of the
    [ZodError] it throws. *)
Definition parse (A : Type) (schema : ZodType A) (data : option json) : ParseReturn A :=
  schema data [].

End Schemas.

(* ================================================================== *)
(** * Exceptions and the host                                           *)
(* ================================================================== *)

Module Runtime.
Import Js Zod.

(** [ErrorCode] of the MCP SDK. *)
Inductive ErrorCode : Type :=
| ParseError | InvalidRequest | MethodNotFound | InvalidParams | InternalError.

(** What can be thrown: the program's own [JiraClientError], the SDK's
    [McpError], Zod's [ZodError], and whatever host code throws. *)
Inductive exn : Type :=
| JiraClientError (message : string) (statusCode : option Z) (jiraErrors : option json)
| McpError (code : ErrorCode) (message : string)
| ZodError (issues : list ZodIssue)
| HostFailure (f : failure).

(** The completion of a call: it returns or it throws. *)
Inductive completion (A : Type) : Type :=
| Return (a : A)
| Throw (e : exn).

Arguments Return {A} a.
Arguments Throw {A} e.

Definition bind (A B : Type) (c : completion A) (k : A -> completion B) : completion B :=
  match c with
  | Return a => k a
  | Throw e => Throw e
  end.

(** The failures of the business: everything but the protocol error. *)
Definition business (e : exn) : Prop :=
  match e with
  | McpError _ _ => False
  | _ => True
  end.

(** What the engine or the host threw, not the program. *)
Definition from_engine (e : exn) : Prop := exists f, e = HostFailure f.

(** [schema.parse(data)] as a completion. *)
Definition parse_or_throw (A : Type) (r : ParseReturn A) : completion A :=
  match r with
  | inr a => Return a
  | inl issues => Throw (ZodError issues)
  end.

(** The host: the JavaScript engine, the Zod library's message text, and
    the remote server behind [fetch]. *)
Class Host : Type := {
  (** Number::toString outside the plain decimal numerals *)
  Number_toString_host : Q -> string;
  (** [JSON.parse]: the value, or the message of the [SyntaxError] *)
  JSON_parse : string -> string + json;
  (** the message of the [TypeError] for spreading a value that is not
      iterable *)
  not_iterable_message : json -> string;
  (** the message of the [TypeError] for converting to a string an object
      that has no usable [toString] *)
  not_primitive_message : string;
  (** [ZodError.prototype.message]: the issues, pretty-printed *)
  ZodError_message : list ZodIssue -> string;
  (** [Buffer.from(s).toString("base64")] *)
  Buffer_base64 : string -> string;
  (** [fetch(url, options)] followed by [response.text()] *)
  fetch : Request -> fetch_outcome
}.

End Runtime.

Declare Scope completion_scope.
Delimit Scope completion_scope with completion.
Notation "x <- c ;; k" := (Runtime.bind c (fun x => k))
  (at level 61, c at next level, right associativity) : completion_scope.

(* ================================================================== *)
(** * src/types.ts and src/jira-client.ts                               *)
(* ================================================================== *)

Module Client.
Import Js Zod Schemas Runtime.
Local Open Scope completion_scope.

Inductive JiraAuth : Type :=
| pat (token : string)
| basic (username password : string).

Record JiraConfig : Type := {
  config_baseUrl : string;
  config_auth : JiraAuth
}.

Record NameRef : Type := { name : string }.
Record KeyRef : Type := { key : string }.

Record CreateIssueFields : Type := {
  project : KeyRef;
  summary : string;
  issuetype : NameRef;
  description : option string;
  priority : option NameRef;
  assignee : option NameRef;
  labels : option (list string);
  components : option (list NameRef)
}.

(** [JiraErrorResponse] *)
Record JiraErrorResponse : Type := {
  errorMessages : option (list string);
  errors : option (list (string * string))
}.

Record JiraClient : Type := {
  baseUrl : string;
  authHeader : string
}.

(** An optional property: [undefined] when absent. *)
Definition optional (A : Type) (f : A -> value) (o : option A) : value :=
  match o with
  | Some a => f a
  | None => VUndefined
  end.

Definition strings (xs : list string) : value := VArr (map VStr xs).

Definition NameRef_value (r : NameRef) : value := VObj [("name", VStr (name r))].
Definition KeyRef_value (r : KeyRef) : value := VObj [("key", VStr (key r))].

(** The object behind a [CreateIssueFields]: the literal the dispatcher
    writes, with all of its eight properties in the order written. *)
Definition CreateIssueFields_value (f : CreateIssueFields) : value :=
  VObj [("project", KeyRef_value (project f));
        ("summary", VStr (summary f));
        ("issuetype", NameRef_value (issuetype f));
        ("description", optional VStr (description f));
        ("priority", optional NameRef_value (priority f));
        ("assignee", optional NameRef_value (assignee f));
        ("labels", optional strings (labels f));
        ("components", optional (fun cs => VArr (map NameRef_value cs)) (components f))].

Definition VisibilityType_string (t : VisibilityType) : string :=
  match t with group => "group" | role => "role" end.

Definition Visibility_value (v : Visibility) : value :=
  VObj [("type", VStr (VisibilityType_string (visibility_type v)));
        ("value", VStr (visibility_value v))].

(** ToBoolean on the values the client builds. *)
Definition truthy_value (v : value) : bool :=
  match v with
  | VUndefined | VNull => false
  | VBool b => b
  | VNum (Fin q) => negb (Qeq_bool q 0)
  | VNum NaN => false
  | VNum _ => true
  | VStr s => truthy_string s
  | VArr _ | VObj _ => true
  end.

(** [s.replace(/\/$/, "")] *)
Fixpoint strip_trailing_slash (s : string) : string :=
  match s with
  | "" => ""
  | String c "" => if Ascii.eqb c "/" then "" else s
  | String c rest => String c (strip_trailing_slash rest)
  end.

(** The constructor. *)
Definition new_JiraClient {host : Host} (config : JiraConfig) : JiraClient :=
  {| baseUrl := strip_trailing_slash (config_baseUrl config);
     authHeader := match config_auth config with
                   | pat token => "Bearer " ++ token
                   | basic username password =>
                       "Basic " ++ Buffer_base64 (username ++ ":" ++ password)
                   end |}.

Section WithHost.

Context {host : Host}.
Variable this : JiraClient.

Definition url_of (endpoint : string) : string :=
  baseUrl this ++ "/rest/api/2" ++ endpoint.

(** The [options] handed to [fetch], with the URL. *)
Definition outbound (method endpoint : string) (body : option value) : Request :=
  {| Js.method := method;
     Js.url := url_of endpoint;
     Js.headers := [("Authorization", authHeader this);
                    ("Content-Type", "application/json");
                    ("Accept", "application/json")];
     Js.body := match body with
                | Some b => if truthy_value b
                            then JSON_stringify Number_toString_host b
                            else None
                | None => None
                end |}.

(** [throw new TypeError(message)], as the engine does. *)
Definition TypeError (A : Type) (message : string) : completion A :=
  Throw (HostFailure (ErrorObject "TypeError" message)).

(** A conversion to a string, with its [TypeError]. *)
Definition converted (A : Type) (o : option A) : completion A :=
  match o with
  | Some a => Return a
  | None => TypeError _ not_primitive_message
  end.

(** The [map] over the entries of [errors]: the template
    [`${field}: ${msg}`] on each, in order. *)
Fixpoint field_messages (entries : list (string * json)) : completion (list json) :=
  match entries with
  | [] => Return []
  | (field, msg) :: rest =>
      s <- converted (ToString Number_toString_host msg) ;;
      lines <- field_messages rest ;;
      Return (JStr (field ++ ": " ++ s) :: lines)
  end.

(** The list [errorMessages] of [request]: the spread of
    [errorData?.errorMessages || []], then one string per entry of
    [errorData?.errors || {}]. *)
Definition collect_errorMessages (errorData : option json) : completion (list json) :=
  match spread (or_else (get_property errorData "errorMessages") (JArr [])) with
  | Some top =>
      lines <- field_messages
                 (Object_entries (or_else (get_property errorData "errors") (JObj []))) ;;
      Return (top ++ lines)%list
  | None =>
      TypeError _ (not_iterable_message
                     (or_else (get_property errorData "errorMessages") (JArr [])))
  end.

(** [xs.join(sep)] *)
Definition Array_join (sep : string) (xs : list json) : completion string :=
  converted (option_map (join sep)
               (sequence (map (join_element Number_toString_host) xs))).

(** What [request] does with the response.  The status is an integer, so
    its decimal numeral is what the template writes for it. *)
Definition classify (response : Response) : completion json :=
  let responseText := text response in
  if negb (ok response) then
    let errorData := match JSON_parse responseText with
                     | inr j => Some j
                     | inl _ => None
                     end in
    errorMessages <- collect_errorMessages errorData ;;
    message <- (if (0 <? Z.of_nat (List.length errorMessages))%Z
                then Array_join "; " errorMessages
                else Return ("HTTP " ++ string_of_Z (status response) ++ ": "
                             ++ statusText response)) ;;
    Throw (JiraClientError message (Some (status response)) errorData)
  else if (status response =? 204)%Z || negb (truthy_string responseText) then
    Return (JObj [])
  else
    match JSON_parse responseText with
    | inr responseData => Return responseData
    | inl msg => Throw (HostFailure (ErrorObject "SyntaxError" msg))
    end.

Definition request (method endpoint : string) (body : option value) : completion json :=
  match fetch (outbound method endpoint body) with
  | Failed fetchError => Throw (HostFailure fetchError)
  | Responded response => classify response
  end.

Record SearchOptions : Type := {
  opt_maxResults : option number;
  opt_startAt : option number;
  opt_fields : option (list string)
}.

Definition default_fields : list string :=
  ["key"; "summary"; "status"; "assignee"; "issuetype"; "priority"; "project";
   "created"; "updated"].

(** [x ?? d] *)
Definition nullish (A : Type) (x : option A) (d : A) : A :=
  match x with
  | Some a => a
  | None => d
  end.

Definition searchIssues_body (jql : string) (options : SearchOptions) : value :=
  VObj [("jql", VStr jql);
        ("maxResults", VNum (nullish (opt_maxResults options) (Fin (inject_Z 50))));
        ("startAt", VNum (nullish (opt_startAt options) (Fin (inject_Z 0))));
        ("fields", strings (nullish (opt_fields options) default_fields))].

Definition searchIssues (jql : string) (options : SearchOptions) : completion json :=
  request "POST" "/search" (Some (searchIssues_body jql options)).

Record IssueOptions : Type := {
  opt_issue_fields : option (list string);
  opt_issue_expand : option (list string)
}.

(** [if (xs && xs.length > 0) { params.set(name, xs.join(",")) }] *)
Definition set_joined (name : string) (xs : option (list string)) (params : URLSearchParams)
  : URLSearchParams :=
  match xs with
  | Some l =>
      if (0 <? Z.of_nat (List.length l))%Z
      then URLSearchParams_set name (join "," l) params
      else params
  | None => params
  end.

Definition getIssue_params (options : IssueOptions) : URLSearchParams :=
  let params : URLSearchParams := [] in
  let params := set_joined "fields" (opt_issue_fields options) params in
  let params := set_joined "expand" (opt_issue_expand options) params in
  params.

Definition getIssue_endpoint (issueIdOrKey : string) (options : IssueOptions) : string :=
  let queryString := URLSearchParams_toString (getIssue_params options) in
  "/issue/" ++ issueIdOrKey
  ++ (if truthy_string queryString then "?" ++ queryString else "").

Definition getIssue (issueIdOrKey : string) (options : IssueOptions) : completion json :=
  request "GET" (getIssue_endpoint issueIdOrKey options) None.

Definition createIssue_body (fields : CreateIssueFields) : value :=
  VObj [("fields", CreateIssueFields_value fields)].

Definition createIssue (fields : CreateIssueFields) : completion json :=
  request "POST" "/issue" (Some (createIssue_body fields)).

Definition addComment_payload (body : string) (visibility : option Visibility) : value :=
  VObj (("body", VStr body)
        :: match visibility with
           | Some v => [("visibility", Visibility_value v)]
           | None => []
           end).

Definition addComment (issueIdOrKey body : string) (visibility : option Visibility)
  : completion json :=
  request "POST" ("/issue/" ++ issueIdOrKey ++ "/comment")
          (Some (addComment_payload body visibility)).

End WithHost.

End Client.

(* ================================================================== *)
(** * src/index.ts                                                      *)
(* ================================================================== *)

Module Index.
Import Js Zod Schemas Runtime Client.
Local Open Scope completion_scope.

Record TextContent : Type := {
  type : string;
  content_text : string
}.

(** The response envelope; [isError] is absent on success. *)
Record CallToolResult : Type := {
  content : list TextContent;
  isError : option bool
}.

(** The names of [TOOLS]. *)
Definition TOOLS : list string :=
  ["jira_search_issues"; "jira_get_issue"; "jira_create_issue"; "jira_add_comment"].

Definition failure_text (text : string) : CallToolResult :=
  {| content := [{| type := "text"; content_text := text |}];
     isError := Some true |}.

(** [s ? { name: s } : undefined] *)
Definition name_if_truthy (s : option string) : option NameRef :=
  match s with
  | Some n => if truthy_string n then Some {| name := n |} else None
  | None => None
  end.

(** The object literal handed to [createIssue]. *)
Definition create_fields (input : CreateIssueInput) : CreateIssueFields :=
  {| project := {| key := create_projectKey input |};
     summary := create_summary input;
     issuetype := {| name := create_issueType input |};
     description := create_description input;
     priority := name_if_truthy (create_priority input);
     assignee := name_if_truthy (create_assignee input);
     labels := create_labels input;
     components := option_map (map (fun n => {| name := n |})) (create_components input) |}.

Section WithClient.

Context {host : Host}.
Variable jiraClient : JiraClient.

Definition success (result : json) : CallToolResult :=
  {| content := [{| type := "text";
                    content_text := JSON_stringify_2 Number_toString_host result |}];
     isError := None |}.

(** The [switch] inside the [try]. *)
Definition dispatch (name : string) (args : option json) : completion CallToolResult :=
  if String.eqb name "jira_search_issues" then
    input <- parse_or_throw (parse SearchIssuesSchema args) ;;
    result <- searchIssues jiraClient (search_jql input)
                {| opt_maxResults := Some (search_maxResults input);
                   opt_startAt := None;
                   opt_fields := search_fields input |} ;;
    Return (success result)
  else if String.eqb name "jira_get_issue" then
    input <- parse_or_throw (parse GetIssueSchema args) ;;
    result <- getIssue jiraClient (get_issueKey input)
                {| opt_issue_fields := get_fields input;
                   opt_issue_expand := get_expand input |} ;;
    Return (success result)
  else if String.eqb name "jira_create_issue" then
    input <- parse_or_throw (parse CreateIssueSchema args) ;;
    result <- createIssue jiraClient (create_fields input) ;;
    Return (success result)
  else if String.eqb name "jira_add_comment" then
    input <- parse_or_throw (parse AddCommentSchema args) ;;
    result <- addComment jiraClient (comment_issueKey input) (comment_body input)
                (comment_visibility input) ;;
    Return (success result)
  else
    Throw (McpError MethodNotFound ("Unknown tool: " ++ name)).

(** [error instanceof Error ? error.message : "Unknown error occurred"]
    on what is neither a [JiraClientError] nor an [McpError]. *)
Definition message_of (f : failure) : string :=
  match f with
  | ErrorObject _ message => message
  | Thrown _ => "Unknown error occurred"
  end.

(** The [catch]. *)
Definition recover (error : exn) : completion CallToolResult :=
  match error with
  | JiraClientError message _ _ => Return (failure_text ("Jira API Error: " ++ message))
  | McpError _ _ => Throw error
  | ZodError issues => Return (failure_text ("Error: " ++ ZodError_message issues))
  | HostFailure f => Return (failure_text ("Error: " ++ message_of f))
  end.

(** The handler of [CallToolRequestSchema]. *)
Definition handle (name : string) (args : option json) : completion CallToolResult :=
  match dispatch name args with
  | Return r => Return r
  | Throw error => recover error
  end.

End WithClient.

End Index.

(* ================================================================== *)
(** * What the statements speak of                                      *)
(* ================================================================== *)

(** The shapes and lists the properties below compare the program with;
    nothing here is part of the program. *)
Module Stated.
Import Js Zod Schemas Runtime Client Index.

(** [String.prototype.includes] *)
Definition includes (hay needle : string) : Prop :=
  exists before after, hay = before ++ needle ++ after.

Definition string_array (ms : list string) : json := JArr (map JStr ms).

Definition string_record (es : list (string * string)) : json :=
  JObj (map (fun e => (fst e, JStr (snd e))) es).

(** A parsed body has the shape of a [JiraErrorResponse]: whatever else
    it holds, [errorMessages] is absent or an array of strings and [errors]
    is absent or an object of strings. *)
Definition as_JiraErrorResponse (j : json) (e : JiraErrorResponse) : Prop :=
  get_property (Some j) "errorMessages" = option_map string_array (errorMessages e)
  /\ get_property (Some j) "errors" = option_map string_record (errors e).

(** The messages a body of this shape lists: the top-level ones, then
    one per field. *)
Definition listed (e : JiraErrorResponse) : list string :=
  app match errorMessages e with Some ms => ms | None => [] end
      (map (fun fm => fst fm ++ ": " ++ snd fm)
         match errors e with Some es => es | None => [] end).

(** The property [k] of a serialized object, when there is a value for it. *)
Definition present (k : string) (o : option json) : list (string * json) :=
  match o with
  | Some j => [(k, j)]
  | None => []
  end.

(** What is written for the fields of a create input. *)
Definition written_fields (input : CreateIssueInput) : list (string * json) :=
  app [("project", JObj [("key", JStr (create_projectKey input))]);
       ("summary", JStr (create_summary input));
       ("issuetype", JObj [("name", JStr (create_issueType input))])]
  (app (present "description" (option_map JStr (create_description input)))
  (app (present "priority"
          (option_map (fun r => JObj [("name", JStr (name r))])
             (name_if_truthy (create_priority input))))
  (app (present "assignee"
          (option_map (fun r => JObj [("name", JStr (name r))])
             (name_if_truthy (create_assignee input))))
  (app (present "labels"
          (option_map (fun ls => JArr (map JStr ls)) (create_labels input)))
       (present "components"
          (option_map (fun cs => JArr (map (fun c => JObj [("name", JStr c)]) cs))
             (create_components input))))))).

End Stated.

(* ================================================================== *)
(** * A test host                                                       *)
(* ================================================================== *)

(** A host to run the program on concrete inputs: a small JSON reader
    (objects, arrays, strings with the two-character escapes, integers and
    the three literals; an object's properties in enumeration order), a
    one-line rendering of Zod's issues, and a backend given as a
    function. *)
Module TestHost.
Import Js Zod Runtime.

Definition is_space (c : ascii) : bool :=
  let n := N_of_ascii c in
  ((n =? 32) || (n =? 9) || (n =? 10) || (n =? 13))%N.

Definition is_digit (c : ascii) : bool :=
  let n := N_of_ascii c in ((48 <=? n) && (n <=? 57))%N.

Fixpoint skip_space (s : string) : string :=
  match s with
  | String c rest => if is_space c then skip_space rest else s
  | "" => ""
  end.

Definition unescape (c : ascii) : option ascii :=
  let n := N_of_ascii c in
  if ((n =? 34) || (n =? 92) || (n =? 47))%N then Some c
  else if (n =? 110)%N then Some (ascii_of_N 10)
  else if (n =? 116)%N then Some (ascii_of_N 9)
  else if (n =? 114)%N then Some (ascii_of_N 13)
  else if (n =? 98)%N then Some (ascii_of_N 8)
  else if (n =? 102)%N then Some (ascii_of_N 12)
  else None.

(** The text after an opening quote, up to the closing one. *)
Fixpoint read_string (s : string) : option (string * string) :=
  match s with
  | "" => None
  | String c rest =>
      if (N_of_ascii c =? 34)%N then Some ("", rest)
      else if (N_of_ascii c =? 92)%N then
        match rest with
        | String e rest' =>
            match unescape e, read_string rest' with
            | Some c', Some (str, tail) => Some (String c' str, tail)
            | _, _ => None
            end
        | "" => None
        end
      else if (N_of_ascii c <? 32)%N then None
      else match read_string rest with
           | Some (str, tail) => Some (String c str, tail)
           | None => None
           end
  end.

Fixpoint read_digits (acc : Z) (s : string) : Z * string :=
  match s with
  | String c rest =>
      if is_digit c
      then read_digits (10 * acc + Z.of_N (N_of_ascii c) - 48) rest
      else (acc, s)
  | "" => (acc, "")
  end.

Definition read_natural (s : string) : option (Z * string) :=
  match s with
  | String c _ => if is_digit c then Some (read_digits 0 s) else None
  | "" => None
  end.

Definition read_literal (word : string) (j : json) (s : string) : option (json * string) :=
  if String.prefix word s
  then Some (j, String.substring (String.length word) (String.length s - String.length word) s)
  else None.

(** A key that is an array index: the canonical numeral of an integer
    below 2^32 - 1. *)
Definition index_of (k : string) : option Z :=
  match read_natural k with
  | Some (z, "") =>
      if String.eqb (string_of_Z z) k && (z <? 4294967295)%Z then Some z else None
  | _ => None
  end.

(** Defining a property: a key met again keeps its place and takes the
    new value. *)
Fixpoint define (k : string) (x : json) (props : list (string * json))
  : list (string * json) :=
  match props with
  | [] => [(k, x)]
  | (k', x') :: rest =>
      if String.eqb k k' then (k, x) :: rest else (k', x') :: define k x rest
  end.

Fixpoint insert_index (z : Z) (kv : string * json) (l : list (Z * (string * json)))
  : list (Z * (string * json)) :=
  match l with
  | [] => [(z, kv)]
  | (z', kv') :: rest =>
      if (z <? z')%Z then (z, kv) :: l else (z', kv') :: insert_index z kv rest
  end.

(** The properties of the object a member list makes, in enumeration
    order: the index keys in ascending order, then the others as first
    written. *)
Definition own_properties (members : list (string * json)) : list (string * json) :=
  let defined := fold_left (fun acc kv => define (fst kv) (snd kv) acc) members [] in
  let indexed :=
    fold_left (fun acc kv => match index_of (fst kv) with
                             | Some z => insert_index z kv acc
                             | None => acc
                             end) defined [] in
  app (map snd indexed)
      (filter (fun kv => match index_of (fst kv) with
                         | Some _ => false
                         | None => true
                         end) defined).

Fixpoint read_value (fuel : nat) (s : string) : option (json * string) :=
  match fuel with
  | O => None
  | S fuel' =>
      match skip_space s with
      | "" => None
      | String c rest =>
          let n := N_of_ascii c in
          if (n =? 123)%N then
            match skip_space rest with
            | String c' rest' =>
                if (N_of_ascii c' =? 125)%N then Some (JObj [], rest')
                else match read_members fuel' (skip_space rest) with
                     | Some (props, tail) => Some (JObj (own_properties props), tail)
                     | None => None
                     end
            | "" => None
            end
          else if (n =? 91)%N then
            match skip_space rest with
            | String c' rest' =>
                if (N_of_ascii c' =? 93)%N then Some (JArr [], rest')
                else match read_elements fuel' rest with
                     | Some (xs, tail) => Some (JArr xs, tail)
                     | None => None
                     end
            | "" => None
            end
          else if (n =? 34)%N then
            match read_string rest with
            | Some (str, tail) => Some (JStr str, tail)
            | None => None
            end
          else if (n =? 45)%N then
            match read_natural rest with
            | Some (z, tail) => Some (JNum (Fin (inject_Z (- z))), tail)
            | None => None
            end
          else if is_digit c then
            match read_natural (String c rest) with
            | Some (z, tail) => Some (JNum (Fin (inject_Z z)), tail)
            | None => None
            end
          else if (n =? 116)%N then read_literal "true" (JBool true) (String c rest)
          else if (n =? 102)%N then read_literal "false" (JBool false) (String c rest)
          else if (n =? 110)%N then read_literal "null" JNull (String c rest)
          else None
      end
  end

with read_elements (fuel : nat) (s : string) : option (list json * string) :=
  match fuel with
  | O => None
  | S fuel' =>
      match read_value fuel' s with
      | Some (x, tail) =>
          match skip_space tail with
          | String c rest =>
              if (N_of_ascii c =? 93)%N then Some ([x], rest)
              else if (N_of_ascii c =? 44)%N then
                match read_elements fuel' rest with
                | Some (xs, tail') => Some (x :: xs, tail')
                | None => None
                end
              else None
          | "" => None
          end
      | None => None
      end
  end

with read_members (fuel : nat) (s : string) : option (list (string * json) * string) :=
  match fuel with
  | O => None
  | S fuel' =>
      match s with
      | String q rest =>
          if (N_of_ascii q =? 34)%N then
            match read_string rest with
            | Some (k, tail) =>
                match skip_space tail with
                | String colon tail' =>
                    if (N_of_ascii colon =? 58)%N then
                      match read_value fuel' tail' with
                      | Some (x, tail'') =>
                          match skip_space tail'' with
                          | String c rest' =>
                              if (N_of_ascii c =? 125)%N then Some ([(k, x)], rest')
                              else if (N_of_ascii c =? 44)%N then
                                match read_members fuel' (skip_space rest') with
                                | Some (props, end_) => Some ((k, x) :: props, end_)
                                | None => None
                                end
                              else None
                          | "" => None
                          end
                      | None => None
                      end
                    else None
                | "" => None
                end
            | None => None
            end
          else None
      | "" => None
      end
  end.

Definition read_json (s : string) : string + json :=
  match read_value (2 * String.length s + 2) s with
  | Some (j, tail) =>
      match skip_space tail with
      | "" => inr j
      | _ => inl "Unexpected non-whitespace character after JSON"
      end
  | None => inl "Unexpected token or end of JSON input"
  end.

Definition show_type (t : ZodParsedType) : string :=
  match t with
  | t_string => "string" | t_nan => "nan" | t_number => "number"
  | t_integer => "integer" | t_float => "float" | t_boolean => "boolean"
  | t_undefined => "undefined" | t_null => "null" | t_array => "array"
  | t_object => "object"
  end.

Definition show_path (p : path) : string :=
  join "." (map (fun i => match i with
                          | Key k => k
                          | Index n => string_of_Z (Z.of_nat n)
                          end) p).

Definition show_issue (i : ZodIssue) : string :=
  match i with
  | invalid_type e r p =>
      show_path p ++ ": expected " ++ show_type e ++ ", received " ++ show_type r
  | invalid_enum_type o r p =>
      show_path p ++ ": expected " ++ join " | " o ++ ", received " ++ show_type r
  | invalid_enum_value o r p =>
      show_path p ++ ": expected " ++ join " | " o ++ ", received " ++ r
  | too_small m p => show_path p ++ ": must be at least " ++ string_of_Z m
  | too_big m p => show_path p ++ ": must be at most " ++ string_of_Z m
  end.

Definition test_host (backend : Request -> fetch_outcome) : Host :=
  {| Number_toString_host := fun _ => "0.5";
     JSON_parse := read_json;
     not_iterable_message := fun _ => "object is not iterable";
     not_primitive_message := "Cannot convert object to primitive value";
     ZodError_message := fun issues => join "; " (map show_issue issues);
     Buffer_base64 := fun s => s;
     fetch := backend |}.

Definition answer (status : Z) (statusText text : string) : Request -> fetch_outcome :=
  fun _ => Responded {| Js.status := status; Js.statusText := statusText; Js.text := text |}.

Definition test_client : Client.JiraClient :=
  {| Client.baseUrl := "http://localhost:8080"; Client.authHeader := "Bearer token" |}.

End TestHost.

(* ================================================================== *)
(** * Example inputs                                                    *)
(* ================================================================== *)

Module Examples.
Import Js Zod Schemas Runtime Client Index Stated TestHost.

Definition quoted (s : string) : string := dquote ++ s ++ dquote.

(** The body [{"errorMessages":["JQL is invalid"]}] and its parsed value. *)
Definition jql_invalid_text : string :=
  "{" ++ quoted "errorMessages" ++ ":[" ++ quoted "JQL is invalid" ++ "]}".

Definition jql_invalid_json : json :=
  JObj [("errorMessages", JArr [JStr "JQL is invalid"])].

(** The body [{"errorMessages":5}]. *)
Definition odd_error_text : string :=
  "{" ++ quoted "errorMessages" ++ ":5}".

Definition bad_search_args : option json := Some (JObj [("jql", JStr "bad")]).

Definition create_args : option json :=
  Some (JObj [("projectKey", JStr "TEST"); ("summary", JStr "x"); ("issueType", JStr "Bug");
              ("priority", JStr "High"); ("components", JArr [JStr "UI"; JStr "API"])]).

Definition create_input : CreateIssueInput :=
  {| create_projectKey := "TEST"; create_summary := "x"; create_issueType := "Bug";
     create_description := None; create_priority := Some "High";
     create_assignee := None; create_labels := None;
     create_components := Some ["UI"; "API"] |}.

(** [{project:{key:"TEST"}, summary:"x", issuetype:{name:"Bug"},
     priority:{name:"High"}, components:[{name:"UI"},{name:"API"}]}] *)
Definition create_expected : json :=
  JObj [("project", JObj [("key", JStr "TEST")]);
        ("summary", JStr "x");
        ("issuetype", JObj [("name", JStr "Bug")]);
        ("priority", JObj [("name", JStr "High")]);
        ("components", JArr [JObj [("name", JStr "UI")]; JObj [("name", JStr "API")]])].

(** A valid create input whose priority is the empty string. *)
Definition empty_priority_args : option json :=
  Some (JObj [("projectKey", JStr "TEST"); ("summary", JStr "x"); ("issueType", JStr "Bug");
              ("priority", JStr "")]).

Definition empty_priority_input : CreateIssueInput :=
  {| create_projectKey := "TEST"; create_summary := "x"; create_issueType := "Bug";
     create_description := None; create_priority := Some "";
     create_assignee := None; create_labels := None; create_components := None |}.

Definition comment_args : option json :=
  Some (JObj [("issueKey", JStr "PROJ-123"); ("body", JStr "hello")]).

(** A search payload with a valid [jql] and [maxResults] and a [fields]
    that is not an array. *)
Definition odd_fields_payload : option json :=
  Some (JObj [("jql", JStr "x"); ("maxResults", JNum (Fin (inject_Z 10)));
              ("fields", JNum (Fin (inject_Z 5)))]).

Definition silent_host : Host := test_host (answer 204 "No Content" "").
Definition rejecting_host : Host := test_host (answer 400 "Bad Request" jql_invalid_text).
Definition odd_host : Host := test_host (answer 400 "Bad Request" odd_error_text).
Definition failing_host : Host := test_host (answer 500 "Internal Server Error" "").

End Examples.

(* ================================================================== *)
(** * src/index.ts: configuration and start-up                          *)
(* ================================================================== *)

Module Startup.
Import Js Runtime Client.

(** [process.env]: a variable is a string or [undefined]. *)
Definition Env : Type := string -> option string.

(** The value of a variable when it is truthy, that is set and not
    empty. *)
Definition given (v : option string) : option string :=
  match v with
  | Some s => if truthy_string s then Some s else None
  | None => None
  end.

(** [throw new Error(message)] *)
Definition throw_Error (A : Type) (message : string) : completion A :=
  Throw (HostFailure (ErrorObject "Error" message)).

Definition getConfig (env : Env) : completion JiraConfig :=
  match given (env "JIRA_BASE_URL") with
  | None => throw_Error _ "JIRA_BASE_URL environment variable is required"
  | Some baseUrl =>
      let authType :=
        match given (env "JIRA_AUTH_TYPE") with Some t => t | None => "pat" end in
      if String.eqb authType "pat" then
        match given (env "JIRA_PAT") with
        | None =>
            throw_Error _
              "JIRA_PAT environment variable is required when using PAT authentication"
        | Some token => Return {| config_baseUrl := baseUrl; config_auth := pat token |}
        end
      else if String.eqb authType "basic" then
        match given (env "JIRA_USERNAME"), given (env "JIRA_PASSWORD") with
        | Some username, Some password =>
            Return {| config_baseUrl := baseUrl; config_auth := basic username password |}
        | _, _ =>
            throw_Error _
              "JIRA_USERNAME and JIRA_PASSWORD are required when using basic authentication"
        end
      else
        throw_Error _
          ("Invalid JIRA_AUTH_TYPE: " ++ authType ++ ". Must be " ++ dquote ++ "pat" ++ dquote
           ++ " or " ++ dquote ++ "basic" ++ dquote)
  end.

(** The first block of [main]: the client the handlers will use and the
    line written to the error stream, or the exit code and that line. *)
Inductive started : Type :=
| Serving (jiraClient : JiraClient) (stderr : string)
| Exited (code : Z) (stderr : string).

Definition main_startup {host : Host} (env : Env) : started :=
  match getConfig env with
  | Return config =>
      Serving (new_JiraClient config) "[Jira MCP] Configuration loaded successfully"
  | Throw error =>
      Exited 1
        ("[Jira MCP] Configuration error: "
         ++ match error with
            | JiraClientError message _ _ => message
            | McpError _ message => message
            | ZodError issues => ZodError_message issues
            | HostFailure (ErrorObject _ message) => message
            | HostFailure (Thrown _) => "undefined"
            end)
  end.

End Startup.

(* ================================================================== *)
(** * What the further statements speak of                              *)
(* ================================================================== *)

(** As [Stated]: nothing here is part of the program. *)
Module Compared.
Import Js Zod Schemas Runtime Client Index Stated.

(** The host with another backend behind [fetch]. *)
Definition with_backend (host : Host) (backend : Request -> fetch_outcome) : Host :=
  {| Number_toString_host := @Number_toString_host host;
     JSON_parse := @JSON_parse host;
     not_iterable_message := @not_iterable_message host;
     not_primitive_message := @not_primitive_message host;
     ZodError_message := @ZodError_message host;
     Buffer_base64 := @Buffer_base64 host;
     fetch := backend |}.

(** The request the dispatcher has the client send for a tool and its
    arguments: the one of the client method it calls, when the arguments
    validate. *)
Definition sent_request {host : Host} (jiraClient : JiraClient) (name : string)
    (args : option json) : option Request :=
  if String.eqb name "jira_search_issues" then
    match parse SearchIssuesSchema args with
    | inr input =>
        Some (outbound jiraClient "POST" "/search"
                (Some (searchIssues_body (search_jql input)
                         {| opt_maxResults := Some (search_maxResults input);
                            opt_startAt := None;
                            opt_fields := search_fields input |})))
    | inl _ => None
    end
  else if String.eqb name "jira_get_issue" then
    match parse GetIssueSchema args with
    | inr input =>
        Some (outbound jiraClient "GET"
                (getIssue_endpoint (get_issueKey input)
                   {| opt_issue_fields := get_fields input;
                      opt_issue_expand := get_expand input |})
                None)
    | inl _ => None
    end
  else if String.eqb name "jira_create_issue" then
    match parse CreateIssueSchema args with
    | inr input =>
        Some (outbound jiraClient "POST" "/issue"
                (Some (createIssue_body (create_fields input))))
    | inl _ => None
    end
  else if String.eqb name "jira_add_comment" then
    match parse AddCommentSchema args with
    | inr input =>
        Some (outbound jiraClient "POST"
                ("/issue/" ++ comment_issueKey input ++ "/comment")
                (Some (addComment_payload (comment_body input)
                         (comment_visibility input))))
    | inl _ => None
    end
  else None.

(** The three headers of every request. *)
Definition standard_headers (jiraClient : JiraClient) : list (string * string) :=
  [("Authorization", authHeader jiraClient);
   ("Content-Type", "application/json");
   ("Accept", "application/json")].

(** A raw [visibility] that the comment schema turns into [v]: an object
    whose [type] is ["group"] or ["role"] and whose [value] is a string. *)
Definition visibility_of (raw : json) (v : Visibility) : Prop :=
  exists props t,
    raw = JObj props
    /\ lookup "type" props = Some (JStr t)
    /\ (t = "group" \/ t = "role")
    /\ visibility_type v = VisibilityType_of_string t
    /\ lookup "value" props = Some (JStr (visibility_value v)).

Definition optional_visibility (raw : option json) (v : option Visibility) : Prop :=
  match raw, v with
  | None, None => True
  | Some j, Some x => visibility_of j x
  | _, _ => False
  end.

(** What is written for a visibility. *)
Definition written_visibility (v : option Visibility) : list (string * json) :=
  match v with
  | Some x =>
      [("visibility",
        JObj [("type", JStr (VisibilityType_string (visibility_type x)));
              ("value", JStr (visibility_value x))])]
  | None => []
  end.

(** Environments for the examples. *)
Definition pat_env : Startup.Env :=
  fun k =>
    if String.eqb k "JIRA_BASE_URL" then Some "https://jira.example.com/"
    else if String.eqb k "JIRA_PAT" then Some "secret"
    else None.

Definition basic_env : Startup.Env :=
  fun k =>
    if String.eqb k "JIRA_BASE_URL" then Some "https://jira.example.com"
    else if String.eqb k "JIRA_AUTH_TYPE" then Some "basic"
    else if String.eqb k "JIRA_USERNAME" then Some "alice"
    else if String.eqb k "JIRA_PASSWORD" then Some "wonderland"
    else None.

Definition empty_env : Startup.Env := fun _ => None.

Definition get_args : option json :=
  Some (JObj [("issueKey", JStr "PROJ-123"); ("expand", JArr [JStr "changelog"])]).

Definition restricted_comment_args : option json :=
  Some (JObj [("issueKey", JStr "PROJ-123"); ("body", JStr "hello");
              ("visibility", JObj [("type", JStr "role"); ("value", JStr "Developers")])]).

Definition search_args : option json :=
  Some (JObj [("jql", JStr "project = TEST"); ("maxResults", JNum (Fin (inject_Z 25)))]).

Definition unreachable_host : Host :=
  TestHost.test_host (fun _ => Failed (ErrorObject "TypeError" "fetch failed")).

Definition issue_text : string :=
  "{" ++ dquote ++ "key" ++ dquote ++ ":" ++ dquote ++ "PROJ-123" ++ dquote ++ "}".

Definition issue_host : Host := TestHost.test_host (TestHost.answer 200 "OK" issue_text).

Definition html_host : Host := TestHost.test_host (TestHost.answer 200 "OK" "<html>").

End Compared.

(* ================================================================== *)
(** * Properties                                                        *)
(* ================================================================== *)

Import Js Zod Schemas Runtime Client Index Stated Examples.

(** ** The dispatcher's boundary *)

Section Boundary.

Context {host : Host}.
Variable jiraClient : JiraClient.

Lemma converted_throws (A : Type) (o : option A) (e : exn) :
  converted o = Throw e -> from_engine e.
Proof.
  destruct o; [discriminate |].
  intros [= <-]; eexists; reflexivity.
Qed.

Lemma field_messages_throws (entries : list (string * json)) (e : exn) :
  field_messages entries = Throw e -> from_engine e.
Proof.
  induction entries as [| [field msg] rest IH]; cbn [field_messages]; [discriminate |].
  destruct (converted (ToString Number_toString_host msg)) as [s | e'] eqn:E;
    cbn [bind].
  - destruct (field_messages rest) as [lines | e'']; cbn [bind]; [discriminate |].
    intros [= <-]; apply IH; reflexivity.
  - intros [= <-]; exact (converted_throws _ E).
Qed.

Lemma collect_throws (errorData : option json) (e : exn) :
  collect_errorMessages errorData = Throw e -> from_engine e.
Proof.
  unfold collect_errorMessages.
  destruct (spread _) as [top |].
  - destruct (field_messages _) as [lines | e'] eqn:E; cbn [bind]; [discriminate |].
    intros [= <-]; exact (field_messages_throws _ E).
  - intros [= <-]; eexists; reflexivity.
Qed.

(** On a response outside 200-299 [classify] throws, and what it throws
    is the [JiraClientError] with the status and the parsed body or a
    [TypeError] of the engine. *)
Lemma classify_failure (response : Response) :
  ok response = false ->
  (exists message,
     classify response
     = Throw (JiraClientError message (Some (status response))
                match JSON_parse (text response) with
                | inr j => Some j
                | inl _ => None
                end))
  \/ exists e, classify response = Throw e /\ from_engine e.
Proof.
  intros Hok; unfold classify; rewrite Hok; cbn [negb].
  destruct (collect_errorMessages _) as [errorMessages | e] eqn:E; cbn [bind].
  - destruct (0 <? Z.of_nat (List.length errorMessages))%Z.
    + destruct (Array_join "; " errorMessages) as [message | e] eqn:J; cbn [bind].
      * left; eexists; reflexivity.
      * right; exists e; split; [reflexivity | exact (converted_throws _ J)].
    + left; eexists; reflexivity.
  - right; exists e; split; [reflexivity | exact (collect_throws _ E)].
Qed.

Lemma classify_business (response : Response) (e : exn) :
  classify response = Throw e -> business e.
Proof.
  destruct (ok response) eqn:Hok.
  - unfold classify; rewrite Hok; cbn [negb].
    destruct (_ || _); [discriminate|].
    destruct (JSON_parse _); [intros [= <-]; exact I | discriminate].
  - destruct (classify_failure response Hok) as [[message ->] | (e' & -> & [f ->])];
      intros [= <-]; exact I.
Qed.

Lemma request_business (method endpoint : string) (body : option value) (e : exn) :
  request jiraClient method endpoint body = Throw e -> business e.
Proof.
  unfold request.
  destruct (fetch _).
  - apply classify_business.
  - intros [= <-]; exact I.
Qed.

Lemma recover_business (e : exn) :
  business e -> exists r, recover e = Return r /\ isError r = Some true.
Proof.
  destruct e; simpl; intros B; try contradiction; eexists; split; reflexivity.
Qed.

(** A validated call ends in an envelope whatever the client does. *)
Lemma settle (A : Type) (r : ParseReturn A) (call : A -> completion json) :
  (forall a e, call a = Throw e -> business e) ->
  exists env,
    match (input <- parse_or_throw r ;; result <- call input ;; Return (success result))%completion with
    | Return x => Return x
    | Throw error => recover error
    end = Return env
    /\ (forall e, (input <- parse_or_throw r ;; result <- call input ;;
                   Return (success result))%completion = Throw e ->
                  isError env = Some true).
Proof.
  intros Hcall.
  destruct r as [issues | a]; simpl.
  - eexists; split; [reflexivity | intros; reflexivity].
  - destruct (call a) as [result | e] eqn:E; simpl.
    + eexists; split; [reflexivity | discriminate].
    + pose proof (Hcall _ _ E) as B.
      apply recover_business in B.
      destruct B as (env & -> & Herr).
      exists env; split; [reflexivity | intros; exact Herr].
Qed.

Lemma outside_catalog (name : string) :
  ~ In name TOOLS ->
  String.eqb name "jira_search_issues" = false
  /\ String.eqb name "jira_get_issue" = false
  /\ String.eqb name "jira_create_issue" = false
  /\ String.eqb name "jira_add_comment" = false.
Proof.
  intros H; repeat split; apply String.eqb_neq; intros ->; apply H; simpl; auto.
Qed.

End Boundary.

Ltac pick_case :=
  unfold handle, dispatch;
  cbv beta iota delta [String.eqb Ascii.eqb Bool.eqb].

(** C4. A name outside the four-element catalog makes [handle] throw the
    protocol fault [McpError(MethodNotFound)], whatever the arguments, and
    no envelope is returned for it; a name inside the catalog always ends in
    an envelope, and that envelope carries the error flag whenever the work
    inside failed (validation, remote or transport). *)
Theorem handle_protocol_boundary (host : Host) (jiraClient : JiraClient)
    (name : string) (args : option json) :
  (~ In name TOOLS ->
   handle jiraClient name args
   = Throw (McpError MethodNotFound ("Unknown tool: " ++ name)))
  /\ (In name TOOLS ->
      exists envelope,
        handle jiraClient name args = Return envelope
        /\ (forall e, dispatch jiraClient name args = Throw e ->
                      isError envelope = Some true)).
Proof.
  split.
  - intros H.
    destruct (outside_catalog H) as (a & b & c & d).
    unfold handle, dispatch.
    rewrite a, b, c, d.
    reflexivity.
  - intros [<- | [<- | [<- | [<- | []]]]]; pick_case; apply settle; intros input e;
      apply request_business.
Qed.

Lemma handle_protocol_boundary_witness :
  @handle silent_host TestHost.test_client "not_a_real_tool" None
  = Throw (McpError MethodNotFound "Unknown tool: not_a_real_tool")
  /\ exists envelope,
       @handle failing_host TestHost.test_client "jira_add_comment" comment_args
       = Return envelope
       /\ (forall e, @dispatch failing_host TestHost.test_client "jira_add_comment" comment_args
                     = Throw e -> isError envelope = Some true).
Proof.
  split.
  - apply (proj1 (handle_protocol_boundary silent_host TestHost.test_client
                    "not_a_real_tool" None)).
    simpl; intuition discriminate.
  - apply (proj2 (handle_protocol_boundary failing_host TestHost.test_client
                    "jira_add_comment" comment_args)).
    simpl; auto.
Defined.

(** ** Remote errors and validation errors *)

Lemma remote_error_caught (host : Host) (A : Type) (r : ParseReturn A)
    (call : A -> completion json) (input : A) (message : string)
    (statusCode : option Z) (jiraErrors : option json) :
  r = inr input ->
  call input = Throw (JiraClientError message statusCode jiraErrors) ->
  match (i <- parse_or_throw r ;; result <- call i ;; Return (success result))%completion with
  | Return x => Return x
  | Throw error => recover error
  end = Return (failure_text ("Jira API Error: " ++ message)).
Proof.
  intros -> E; simpl; rewrite E; reflexivity.
Qed.

Lemma validation_error_caught (host : Host) (A : Type) (r : ParseReturn A)
    (call : A -> completion json) (issues : list ZodIssue) :
  r = inl issues ->
  match (i <- parse_or_throw r ;; result <- call i ;; Return (success result))%completion with
  | Return x => Return x
  | Throw error => recover error
  end = Return (failure_text ("Error: " ++ ZodError_message issues)).
Proof.
  intros ->; reflexivity.
Qed.

(** C3. When the arguments of a catalogued tool validate and the client
    call made for them throws a [JiraClientError], [handle] returns (it does
    not throw) the envelope with [isError] true and the single text block
    ["Jira API Error: " + message]; and when the backend answers the search
    for ["bad"] with status 400 and the body
    [{"errorMessages":["JQL is invalid"]}], the envelope returned is an error
    envelope whose text includes ["JQL is invalid"]. *)
Theorem remote_error_envelope (host : Host) (jiraClient : JiraClient)
    (args : option json) (message : string) (statusCode : option Z)
    (jiraErrors : option json) :
  let envelope :=
    {| content := [{| type := "text"; content_text := "Jira API Error: " ++ message |}];
       isError := Some true |} in
  (forall input,
     parse SearchIssuesSchema args = inr input ->
     searchIssues jiraClient (search_jql input)
       {| opt_maxResults := Some (search_maxResults input);
          opt_startAt := None;
          opt_fields := search_fields input |}
     = Throw (JiraClientError message statusCode jiraErrors) ->
     handle jiraClient "jira_search_issues" args = Return envelope)
  /\ (forall input,
        parse GetIssueSchema args = inr input ->
        getIssue jiraClient (get_issueKey input)
          {| opt_issue_fields := get_fields input; opt_issue_expand := get_expand input |}
        = Throw (JiraClientError message statusCode jiraErrors) ->
        handle jiraClient "jira_get_issue" args = Return envelope)
  /\ (forall input,
        parse CreateIssueSchema args = inr input ->
        createIssue jiraClient (create_fields input)
        = Throw (JiraClientError message statusCode jiraErrors) ->
        handle jiraClient "jira_create_issue" args = Return envelope)
  /\ (forall input,
        parse AddCommentSchema args = inr input ->
        addComment jiraClient (comment_issueKey input) (comment_body input)
          (comment_visibility input)
        = Throw (JiraClientError message statusCode jiraErrors) ->
        handle jiraClient "jira_add_comment" args = Return envelope)
  /\ (forall response,
        fetch (outbound jiraClient "POST" "/search"
                 (Some (searchIssues_body "bad"
                          {| opt_maxResults := Some (Fin (inject_Z 50));
                             opt_startAt := None;
                             opt_fields := None |})))
        = Responded response ->
        status response = 400 ->
        text response = jql_invalid_text ->
        JSON_parse jql_invalid_text = inr jql_invalid_json ->
        exists text,
          handle jiraClient "jira_search_issues" bad_search_args
          = Return {| content := [{| type := "text"; content_text := text |}];
                      isError := Some true |}
          /\ text = "Jira API Error: JQL is invalid"
          /\ includes text "JQL is invalid").
Proof.
  intros envelope.
  repeat split; intros input H E.
  1-4: pick_case; exact (remote_error_caught _ _ H E).
  intros Htext Hparse.
  rename input into response.
  exists "Jira API Error: JQL is invalid".
  split; [| split; [reflexivity | exists "Jira API Error: ", ""; reflexivity]].
  pick_case.
  change (parse SearchIssuesSchema bad_search_args)
    with (@inr (list ZodIssue) _
            {| search_jql := "bad"; search_maxResults := Fin (inject_Z 50);
               search_fields := None |}).
  cbn [parse_or_throw bind search_jql search_maxResults search_fields].
  unfold searchIssues, request.
  rewrite H.
  unfold classify, ok.
  rewrite E, Htext, Hparse.
  reflexivity.
Qed.

Lemma remote_error_envelope_witness :
  @handle rejecting_host TestHost.test_client "jira_search_issues" bad_search_args
  = Return {| content := [{| type := "text";
                             content_text := "Jira API Error: JQL is invalid" |}];
              isError := Some true |}
  /\ exists text,
       @handle rejecting_host TestHost.test_client "jira_search_issues" bad_search_args
       = Return {| content := [{| type := "text"; content_text := text |}];
                   isError := Some true |}
       /\ text = "Jira API Error: JQL is invalid"
       /\ includes text "JQL is invalid".
Proof.
  split.
  - apply (proj1 (remote_error_envelope rejecting_host TestHost.test_client
                    bad_search_args "JQL is invalid" (Some 400) (Some jql_invalid_json))
             {| search_jql := "bad"; search_maxResults := Fin (inject_Z 50);
                search_fields := None |});
      reflexivity.
  - apply (proj2 (proj2 (proj2 (proj2
             (remote_error_envelope rejecting_host TestHost.test_client
                bad_search_args "" None None))))
             {| status := 400; statusText := "Bad Request"; text := jql_invalid_text |});
      reflexivity.
Defined.

(** C5 as written fails: the text of the envelope is not the validator's
    diagnostic itself.  A search without [jql] is answered with
    ["Error: "] followed by the diagnostic. *)
Lemma validation_text_not_verbatim :
  parse SearchIssuesSchema (Some (JObj []))
  = inl [invalid_type t_string t_undefined [Key "jql"]]
  /\ @handle silent_host TestHost.test_client "jira_search_issues" (Some (JObj []))
     = Return (failure_text
                 ("Error: " ++ @ZodError_message silent_host
                                 [invalid_type t_string t_undefined [Key "jql"]]))
  /\ @handle silent_host TestHost.test_client "jira_search_issues" (Some (JObj []))
     <> Return (failure_text
                  (@ZodError_message silent_host
                     [invalid_type t_string t_undefined [Key "jql"]])).
Proof.
  split; [reflexivity | split; [reflexivity | vm_compute; discriminate]].
Qed.

(** C5, amended. When the raw arguments of a catalogued tool fail its
    schema, [handle] returns the envelope with [isError] true whose single
    text block is ["Error: "] followed by the validator's diagnostic text;
    nothing is thrown. *)
Theorem validation_error_envelope (host : Host) (jiraClient : JiraClient)
    (args : option json) (issues : list ZodIssue) :
  let envelope :=
    {| content := [{| type := "text";
                      content_text := "Error: " ++ ZodError_message issues |}];
       isError := Some true |} in
  (parse SearchIssuesSchema args = inl issues ->
   handle jiraClient "jira_search_issues" args = Return envelope)
  /\ (parse GetIssueSchema args = inl issues ->
      handle jiraClient "jira_get_issue" args = Return envelope)
  /\ (parse CreateIssueSchema args = inl issues ->
      handle jiraClient "jira_create_issue" args = Return envelope)
  /\ (parse AddCommentSchema args = inl issues ->
      handle jiraClient "jira_add_comment" args = Return envelope).
Proof.
  intros envelope.
  repeat split; intros H; pick_case; exact (validation_error_caught _ _ H).
Qed.

Lemma validation_error_envelope_witness :
  @handle silent_host TestHost.test_client "jira_search_issues" (Some (JObj []))
  = Return {| content := [{| type := "text";
                             content_text := "Error: jql: expected string, received undefined" |}];
              isError := Some true |}.
Proof.
  apply (proj1 (validation_error_envelope silent_host TestHost.test_client
                  (Some (JObj [])) [invalid_type t_string t_undefined [Key "jql"]])).
  reflexivity.
Defined.

(** ** The request primitive *)

Section Request.

Context {host : Host}.
Variable jiraClient : JiraClient.

Lemma sequence_length (A : Type) (xs : list (option A)) (l : list A) :
  sequence xs = Some l -> List.length l = List.length xs.
Proof.
  revert l; induction xs as [| [x |] xs IH]; intros l; cbn [sequence].
  - intros [= <-]; reflexivity.
  - destruct (sequence xs) as [l' |]; [| discriminate].
    intros [= <-]; cbn [List.length]; rewrite (IH l' eq_refl); reflexivity.
  - discriminate.
Qed.

Lemma join_elements_of_strings (ms : list string) :
  sequence (map (join_element Number_toString_host) (map JStr ms)) = Some ms.
Proof.
  induction ms as [| m ms IH]; [reflexivity |].
  cbn [map sequence join_element ToString]; rewrite IH; reflexivity.
Qed.

Lemma field_lines (es : list (string * string)) :
  field_messages (map (fun e => (fst e, JStr (snd e))) es)
  = Return (map (fun e => JStr (fst e ++ ": " ++ snd e)) es).
Proof.
  induction es as [| e es IH]; [reflexivity |].
  cbn [map field_messages fst snd ToString converted bind]; rewrite IH; reflexivity.
Qed.

Lemma collect_shaped (j : json) (e : JiraErrorResponse) :
  as_JiraErrorResponse j e ->
  exists errorMessages,
    collect_errorMessages (Some j) = Return errorMessages
    /\ sequence (map (join_element Number_toString_host) errorMessages) = Some (listed e).
Proof.
  intros [Hm He].
  unfold collect_errorMessages, listed.
  rewrite Hm, He.
  assert (Hlines : forall es : list (string * string),
             map (fun e => JStr (fst e ++ ": " ++ snd e)) es
             = map JStr (map (fun fm => fst fm ++ ": " ++ snd fm) es))
    by (intros es; rewrite map_map; reflexivity).
  destruct e as [[ms |] [es |]];
    cbn [option_map errorMessages errors or_else truthy string_array string_record
         spread Object_entries];
    rewrite ?field_lines; cbn [field_messages bind];
    eexists; (split; [reflexivity |]);
    rewrite ?Hlines, <- ?map_app, ?List.app_nil_r;
    try apply join_elements_of_strings; reflexivity.
Qed.

Lemma ok_range (response : Response) :
  ok response = false <-> ~ (200 <= status response <= 299)%Z.
Proof.
  unfold ok.
  rewrite Bool.andb_false_iff, !Z.leb_gt.
  lia.
Qed.

Lemma classify_remote_only (response : Response) (m : string) (sc : option Z)
    (je : option json) :
  classify response = Throw (JiraClientError m sc je) ->
  ok response = false /\ sc = Some (status response).
Proof.
  destruct (ok response) eqn:Hok.
  - unfold classify; rewrite Hok; cbn [negb].
    destruct (_ || _); [discriminate |].
    destruct (JSON_parse _); discriminate.
  - intros Hthrow; split; [reflexivity |].
    destruct (classify_failure response Hok) as [[message E] | (e & E & [f ->])];
      rewrite E in Hthrow.
    + injection Hthrow as _ <- _; reflexivity.
    + discriminate.
Qed.

End Request.

(** C2 as written fails: a response outside 200-299 does not always make
    [request] throw a [JiraClientError].  When the body parses and its
    [errorMessages] is the number 5, the spread throws a [TypeError], and
    the dispatcher reports it as a plain error. *)
Lemma odd_error_body_raises_type_error :
  ~ (200 <= 400 <= 299)%Z
  /\ @JSON_parse odd_host odd_error_text
     = inr (JObj [("errorMessages", JNum (Fin (inject_Z 5)))])
  /\ @request odd_host TestHost.test_client "POST" "/search"
       (Some (searchIssues_body "bad"
                {| opt_maxResults := None; opt_startAt := None; opt_fields := None |}))
     = Throw (HostFailure (ErrorObject "TypeError" "object is not iterable"))
  /\ (forall m sc je,
        @request odd_host TestHost.test_client "POST" "/search"
          (Some (searchIssues_body "bad"
                   {| opt_maxResults := None; opt_startAt := None; opt_fields := None |}))
        <> Throw (JiraClientError m sc je))
  /\ @handle odd_host TestHost.test_client "jira_search_issues" bad_search_args
     = Return (failure_text "Error: object is not iterable").
Proof.
  split; [lia |].
  split; [reflexivity |].
  split; [reflexivity |].
  split; [intros m sc je; vm_compute; discriminate | reflexivity].
Qed.

(** C2, amended. For a response whose status is outside 200-299 and whose
    body either does not parse or parses to a value of the error shape
    ([errorMessages] absent or an array of strings, [errors] absent or an
    object of strings), [request] throws a [JiraClientError]; its message is
    the top-level messages followed by ["<field>: <message>"] for each field,
    joined with ["; "], when there is at least one, and
    ["HTTP <status>: <statusText>"] otherwise; it carries the status, and the
    parsed body when the body parsed and none when it did not.  And
    [request] throws a [JiraClientError] only for a response outside
    200-299. *)
Theorem request_remote_error (host : Host) (jiraClient : JiraClient)
    (method endpoint : string) (body : option value) :
  (forall response why,
     fetch (outbound jiraClient method endpoint body) = Responded response ->
     ~ (200 <= status response <= 299)%Z ->
     JSON_parse (text response) = inl why ->
     request jiraClient method endpoint body
     = Throw (JiraClientError
                ("HTTP " ++ string_of_Z (status response) ++ ": " ++ statusText response)
                (Some (status response)) None))
  /\ (forall response j e,
        fetch (outbound jiraClient method endpoint body) = Responded response ->
        ~ (200 <= status response <= 299)%Z ->
        JSON_parse (text response) = inr j ->
        as_JiraErrorResponse j e ->
        request jiraClient method endpoint body
        = Throw (JiraClientError
                   match listed e with
                   | [] => "HTTP " ++ string_of_Z (status response) ++ ": "
                           ++ statusText response
                   | _ => join "; " (listed e)
                   end
                   (Some (status response)) (Some j)))
  /\ (forall message statusCode jiraErrors,
        request jiraClient method endpoint body
        = Throw (JiraClientError message statusCode jiraErrors) ->
        exists response,
          fetch (outbound jiraClient method endpoint body) = Responded response
          /\ ~ (200 <= status response <= 299)%Z
          /\ statusCode = Some (status response)).
Proof.
  repeat split.
  - intros response why Hfetch Hstatus Hparse.
    unfold request; rewrite Hfetch.
    unfold classify.
    rewrite (proj2 (ok_range response) Hstatus), Hparse.
    reflexivity.
  - intros response j e Hfetch Hstatus Hparse Hshape.
    unfold request; rewrite Hfetch.
    unfold classify.
    rewrite (proj2 (ok_range response) Hstatus), Hparse.
    cbn [negb].
    destruct (collect_shaped Hshape) as (collected & -> & Hseq).
    assert (Hlen : List.length collected = List.length (listed e)).
    { apply sequence_length in Hseq.
      rewrite Hseq, List.length_map; reflexivity. }
    cbn [bind]; unfold Array_join.
    rewrite Hseq, Hlen.
    destruct (listed e); reflexivity.
  - intros message statusCode jiraErrors.
    unfold request.
    destruct (fetch _) as [response | f]; [| discriminate].
    intros Hthrow.
    apply classify_remote_only in Hthrow as [Hok Hcode].
    exists response; split; [reflexivity | split; [apply ok_range, Hok | exact Hcode]].
Qed.

(** Outside the error shape a value that cannot be converted to a string
    also ends in a [TypeError]: an object with an own [toString], as a
    top-level message or as the message of a field. *)
Lemma unconvertible_message_raises_type_error :
  @classify silent_host
    {| status := 400; statusText := "Bad Request";
       text := "{" ++ quoted "errorMessages" ++ ":[{" ++ quoted "toString" ++ ":1}]}" |}
  = Throw (HostFailure (ErrorObject "TypeError" "Cannot convert object to primitive value"))
  /\ @classify silent_host
       {| status := 400; statusText := "Bad Request";
          text := "{" ++ quoted "errors" ++ ":{" ++ quoted "summary" ++ ":{"
                  ++ quoted "toString" ++ ":1}}}" |}
     = Throw (HostFailure (ErrorObject "TypeError" "Cannot convert object to primitive value")).
Proof.
  split; reflexivity.
Qed.

Lemma request_remote_error_witness :
  @request rejecting_host TestHost.test_client "POST" "/search" None
  = Throw (JiraClientError "JQL is invalid" (Some 400) (Some jql_invalid_json))
  /\ @request failing_host TestHost.test_client "POST" "/search" None
     = Throw (JiraClientError "HTTP 500: Internal Server Error" (Some 500) None)
  /\ exists response,
       @fetch rejecting_host (@outbound rejecting_host TestHost.test_client "POST" "/search" None)
       = Responded response
       /\ ~ (200 <= status response <= 299)%Z
       /\ Some 400 = Some (status response).
Proof.
  split; [| split].
  - apply (proj1 (proj2 (request_remote_error rejecting_host TestHost.test_client
                           "POST" "/search" None))
             {| status := 400; statusText := "Bad Request"; text := jql_invalid_text |}
             jql_invalid_json
             {| errorMessages := Some ["JQL is invalid"]; errors := None |}).
    + reflexivity.
    + simpl; lia.
    + reflexivity.
    + split; reflexivity.
  - apply (proj1 (request_remote_error failing_host TestHost.test_client
                    "POST" "/search" None)
             {| status := 500; statusText := "Internal Server Error"; text := "" |}
             "Unexpected token or end of JSON input").
    + reflexivity.
    + simpl; lia.
    + reflexivity.
  - apply (proj2 (proj2 (request_remote_error rejecting_host
                           TestHost.test_client "POST" "/search" None))
             "JQL is invalid" (Some 400) (Some jql_invalid_json)).
    reflexivity.
Defined.

(** C6 as written fails: an empty body does not always give the empty
    structure.  On status 500 with an empty body [request] throws. *)
Lemma empty_body_of_failure_throws :
  text {| status := 500; statusText := "Internal Server Error"; text := "" |} = ""
  /\ @request failing_host TestHost.test_client "POST" "/issue/PROJ-123/comment"
       (Some (addComment_payload "hello" None))
     = Throw (JiraClientError "HTTP 500: Internal Server Error" (Some 500) None)
  /\ @request failing_host TestHost.test_client "POST" "/issue/PROJ-123/comment"
       (Some (addComment_payload "hello" None))
     <> Return (JObj []).
Proof.
  split; [reflexivity | split; [reflexivity | vm_compute; discriminate]].
Qed.

(** C6, amended. For a response in the range 200-299 that has status 204 or
    an empty body, [request] does not throw and its result is the empty
    object; and a validated add-comment call answered with 204 gives the
    success envelope whose text is ["{}"]. *)
Theorem empty_success_result (host : Host) (jiraClient : JiraClient) :
  (forall method endpoint body response,
     fetch (outbound jiraClient method endpoint body) = Responded response ->
     (200 <= status response <= 299)%Z ->
     status response = 204 \/ text response = "" ->
     request jiraClient method endpoint body = Return (JObj []))
  /\ (forall args input response,
        parse AddCommentSchema args = inr input ->
        fetch (outbound jiraClient "POST"
                 ("/issue/" ++ comment_issueKey input ++ "/comment")
                 (Some (addComment_payload (comment_body input)
                          (comment_visibility input))))
        = Responded response ->
        status response = 204 ->
        handle jiraClient "jira_add_comment" args
        = Return {| content := [{| type := "text"; content_text := "{}" |}];
                    isError := None |}).
Proof.
  assert (Hempty : forall method endpoint body response,
             fetch (outbound jiraClient method endpoint body) = Responded response ->
             (200 <= status response <= 299)%Z ->
             status response = 204 \/ text response = "" ->
             request jiraClient method endpoint body = Return (JObj [])).
  { intros method endpoint body response Hfetch Hstatus Hcase.
    unfold request; rewrite Hfetch.
    unfold classify.
    destruct (ok response) eqn:Hok.
    - cbn [negb].
      destruct Hcase as [-> | ->]; [reflexivity |].
      rewrite Bool.orb_true_r; reflexivity.
    - apply ok_range in Hok; contradiction. }
  split; [exact Hempty |].
  intros args input response Hparse Hfetch Hstatus.
  pick_case.
  rewrite Hparse.
  cbn [parse_or_throw bind].
  unfold addComment.
  rewrite (Hempty _ _ _ _ Hfetch); [reflexivity | lia | left; exact Hstatus].
Qed.

Lemma empty_success_result_witness :
  @request silent_host TestHost.test_client "POST" "/issue/PROJ-123/comment"
    (Some (addComment_payload "hello" None))
  = Return (JObj [])
  /\ @handle silent_host TestHost.test_client "jira_add_comment" comment_args
     = Return {| content := [{| type := "text"; content_text := "{}" |}];
                 isError := None |}.
Proof.
  split.
  - apply (proj1 (empty_success_result silent_host TestHost.test_client)
             "POST" "/issue/PROJ-123/comment" (Some (addComment_payload "hello" None))
             {| status := 204; statusText := "No Content"; text := "" |}).
    + reflexivity.
    + simpl; lia.
    + left; reflexivity.
  - apply (proj2 (empty_success_result silent_host TestHost.test_client)
             comment_args
             {| comment_issueKey := "PROJ-123"; comment_body := "hello";
                comment_visibility := None |}
             {| status := 204; statusText := "No Content"; text := "" |});
      reflexivity.
Defined.

(** ** Reshaping the create input *)

(** C1 as written fails: not every priority name of a valid create input
    becomes [{name: ...}].  The empty string validates as a priority and the
    dispatcher leaves it out. *)
Lemma empty_priority_is_dropped :
  parse CreateIssueSchema empty_priority_args = inr empty_priority_input
  /\ create_priority empty_priority_input = Some ""
  /\ priority (create_fields empty_priority_input) = None
  /\ priority (create_fields empty_priority_input) <> Some {| name := "" |}.
Proof.
  repeat split; try reflexivity; discriminate.
Qed.

(** C1, amended. For every valid create input the dispatcher hands
    [createIssue] a fields object in which the project key has become
    [{key: ...}], the issue type [{name: ...}], a priority that is present
    and not the empty string [{name: ...}] (an absent or empty one is left
    out), and the components an array of [{name: ...}]; for the example
    input the object is [{project:{key:"TEST"}, summary:"x",
    issuetype:{name:"Bug"}, priority:{name:"High"},
    components:[{name:"UI"},{name:"API"}]}]. *)
Theorem create_issue_reshaping (host : Host) (jiraClient : JiraClient)
    (args : option json) (input : CreateIssueInput) :
  parse CreateIssueSchema args = inr input ->
  let fields := create_fields input in
  handle jiraClient "jira_create_issue" args
  = match createIssue jiraClient fields with
    | Return result => Return (success result)
    | Throw error => recover error
    end
  /\ project fields = {| key := create_projectKey input |}
  /\ summary fields = create_summary input
  /\ issuetype fields = {| name := create_issueType input |}
  /\ (forall p, create_priority input = Some p -> p <> "" ->
                priority fields = Some {| name := p |})
  /\ (create_priority input = None \/ create_priority input = Some "" ->
      priority fields = None)
  /\ components fields
     = option_map (map (fun n => {| name := n |})) (create_components input)
  /\ (args = create_args ->
      input = create_input
      /\ to_json (CreateIssueFields_value fields) = Some create_expected).
Proof.
  intros Hparse fields.
  split.
  { subst fields. pick_case. rewrite Hparse. cbn [parse_or_throw bind].
    destruct (createIssue jiraClient (create_fields input)); reflexivity. }
  repeat split.
  - intros p Hp Hne. subst fields. unfold create_fields; cbn [priority].
    rewrite Hp. destruct p; [contradiction | reflexivity].
  - subst fields. unfold create_fields; cbn [priority].
    intros [-> | ->]; reflexivity.
  - subst args. vm_compute in Hparse. now injection Hparse as <-.
  - subst args fields. vm_compute in Hparse. injection Hparse as <-. reflexivity.
Qed.

Lemma create_issue_reshaping_witness :
  create_fields create_input
  = {| project := {| key := "TEST" |};
       summary := "x";
       issuetype := {| name := "Bug" |};
       description := None;
       priority := Some {| name := "High" |};
       assignee := None;
       labels := None;
       components := Some [{| name := "UI" |}; {| name := "API" |}] |}
  /\ to_json (CreateIssueFields_value (create_fields create_input)) = Some create_expected.
Proof.
  pose proof (@create_issue_reshaping silent_host TestHost.test_client
                create_args create_input eq_refl) as H.
  cbv zeta in H.
  destruct H as (_ & _ & _ & _ & _ & _ & _ & Hexample).
  split; [reflexivity | exact (proj2 (Hexample eq_refl))].
Defined.

(** ** The search schema *)

Lemma parse_strings (p : path) (fs : list string) (i : nat) :
  parse_items z_string p i (map JStr fs) = inr fs.
Proof.
  revert i; induction fs as [| f fs IH]; intros i; simpl; [reflexivity |].
  rewrite IH; reflexivity.
Qed.

Lemma optional_strings (p : path) (fields : option (list string)) :
  z_optional (z_array z_string) (option_map string_array fields) p = inr fields.
Proof.
  destruct fields as [fs |]; simpl; [| reflexivity].
  rewrite parse_strings; reflexivity.
Qed.

Lemma maxResults_accepted (p : path) (q : Q) :
  is_integer q = true -> (1 <= q <= 100)%Q ->
  maxResults_schema (Some (JNum (Fin q))) p = inr (Fin q).
Proof.
  intros Hint [Hlo Hhi].
  unfold maxResults_schema, z_default, z_optional, z_number.
  cbn [flat_map run_check Number_isInteger number_lt number_gt].
  rewrite Hint.
  apply Qle_bool_iff in Hlo, Hhi.
  change (inject_Z 1) with 1%Q; change (inject_Z 100) with 100%Q.
  rewrite Hlo, Hhi.
  reflexivity.
Qed.

Lemma maxResults_rejected (p : path) (v : json) :
  (forall q, v = JNum (Fin q) -> (q < 1)%Q \/ (100 < q)%Q \/ is_integer q = false) ->
  exists issues, maxResults_schema (Some v) p = inl issues.
Proof.
  intros H.
  destruct v as [| b | [q | | |] | s | xs | props];
    try (eexists; reflexivity).
  unfold maxResults_schema, z_default, z_optional, z_number.
  cbn [flat_map run_check Number_isInteger number_lt number_gt].
  change (inject_Z 1) with 1%Q; change (inject_Z 100) with 100%Q.
  destruct (is_integer q) eqn:Hint; [| eexists; reflexivity].
  destruct (Qle_bool 1 q) eqn:Hlo; [| eexists; reflexivity].
  destruct (Qle_bool q 100) eqn:Hhi; [| eexists; reflexivity].
  apply Qle_bool_iff in Hlo, Hhi.
  destruct (H q eq_refl) as [Hlt | [Hgt | Hni]].
  - exfalso; exact (Qlt_not_le _ _ Hlt Hlo).
  - exfalso; exact (Qlt_not_le _ _ Hgt Hhi).
  - congruence.
Qed.

(** C7 as written fails: a payload with a string [jql] and an integer
    [maxResults] between 1 and 100 is not always accepted.  The schema also
    checks [fields], and rejects the payload when it is not an array. *)
Lemma odd_fields_rejected :
  lookup "jql" [("jql", JStr "x"); ("maxResults", JNum (Fin (inject_Z 10)));
                ("fields", JNum (Fin (inject_Z 5)))] = Some (JStr "x")
  /\ lookup "maxResults" [("jql", JStr "x"); ("maxResults", JNum (Fin (inject_Z 10)));
                          ("fields", JNum (Fin (inject_Z 5)))]
     = Some (JNum (Fin (inject_Z 10)))
  /\ parse SearchIssuesSchema odd_fields_payload
     = inl [invalid_type t_array t_number [Key "fields"]].
Proof.
  repeat split; reflexivity.
Qed.

(** C7, amended. The search schema accepts every payload with a string
    [jql], a [maxResults] that is absent or an integer between 1 and 100, and
    a [fields] that is absent or an array of strings; an absent [maxResults]
    becomes 50.  It rejects every payload whose [maxResults] is below 1,
    above 100 or not an integer, 0 and 101 among them. *)
Theorem search_schema_bounds (props : list (string * json)) :
  (forall jql fields,
     lookup "jql" props = Some (JStr jql) ->
     lookup "fields" props = option_map string_array fields ->
     (lookup "maxResults" props = None ->
      parse SearchIssuesSchema (Some (JObj props))
      = inr {| search_jql := jql;
               search_maxResults := Fin (inject_Z 50);
               search_fields := fields |})
     /\ (forall q,
           lookup "maxResults" props = Some (JNum (Fin q)) ->
           is_integer q = true ->
           (1 <= q <= 100)%Q ->
           parse SearchIssuesSchema (Some (JObj props))
           = inr {| search_jql := jql;
                    search_maxResults := Fin q;
                    search_fields := fields |}))
  /\ (forall v,
        lookup "maxResults" props = Some v ->
        (forall q, v = JNum (Fin q) ->
                   (q < 1)%Q \/ (100 < q)%Q \/ is_integer q = false) ->
        exists issues, parse SearchIssuesSchema (Some (JObj props)) = inl issues)
  /\ (lookup "maxResults" props = Some (JNum (Fin (inject_Z 0)))
      \/ lookup "maxResults" props = Some (JNum (Fin (inject_Z 101))) ->
      exists issues, parse SearchIssuesSchema (Some (JObj props)) = inl issues).
Proof.
  assert (Hreject : forall v,
             lookup "maxResults" props = Some v ->
             (forall q, v = JNum (Fin q) ->
                        (q < 1)%Q \/ (100 < q)%Q \/ is_integer q = false) ->
             exists issues, parse SearchIssuesSchema (Some (JObj props)) = inl issues).
  { intros v Hmax Hbad.
    unfold parse, SearchIssuesSchema, z_object, member.
    rewrite Hmax.
    destruct (maxResults_rejected (app [] [Key "maxResults"]) Hbad) as [issues ->].
    destruct (z_string _ _), (z_optional _ _ _); eexists; reflexivity. }
  split; [| split].
  - intros jql fields Hjql Hfields.
    split.
    + intros Hmax.
      unfold parse, SearchIssuesSchema, z_object, member.
      rewrite Hjql, Hfields, Hmax, optional_strings.
      reflexivity.
    + intros q Hmax Hint Hrange.
      unfold parse, SearchIssuesSchema, z_object, member.
      rewrite Hjql, Hfields, Hmax, optional_strings, maxResults_accepted by assumption.
      reflexivity.
  - exact Hreject.
  - intros [Hmax | Hmax]; apply (Hreject _ Hmax); intros q [= <-].
    + left; reflexivity.
    + right; left; reflexivity.
Qed.

Lemma search_schema_bounds_witness :
  parse SearchIssuesSchema
    (Some (JObj [("jql", JStr "project = TEST"); ("fields", JArr [JStr "key"])]))
  = inr {| search_jql := "project = TEST";
           search_maxResults := Fin (inject_Z 50);
           search_fields := Some ["key"] |}
  /\ parse SearchIssuesSchema
       (Some (JObj [("jql", JStr "project = TEST"); ("maxResults", JNum (Fin (inject_Z 100)))]))
     = inr {| search_jql := "project = TEST";
              search_maxResults := Fin (inject_Z 100);
              search_fields := None |}
  /\ (exists issues,
        parse SearchIssuesSchema
          (Some (JObj [("jql", JStr "x"); ("maxResults", JNum (Fin (1 # 2)))]))
        = inl issues)
  /\ (exists issues,
        parse SearchIssuesSchema
          (Some (JObj [("jql", JStr "x"); ("maxResults", JNum (Fin (inject_Z 101)))]))
        = inl issues).
Proof.
  split; [| split; [| split]].
  - apply (proj1 (proj1 (search_schema_bounds
                           [("jql", JStr "project = TEST"); ("fields", JArr [JStr "key"])])
                    "project = TEST" (Some ["key"]) eq_refl eq_refl)).
    reflexivity.
  - apply (proj2 (proj1 (search_schema_bounds
                           [("jql", JStr "project = TEST");
                            ("maxResults", JNum (Fin (inject_Z 100)))])
                    "project = TEST" None eq_refl eq_refl)).
    + reflexivity.
    + reflexivity.
    + split; discriminate.
  - apply (proj1 (proj2 (search_schema_bounds
                           [("jql", JStr "x"); ("maxResults", JNum (Fin (1 # 2)))]))
             (JNum (Fin (1 # 2))) eq_refl).
    intros q [= <-]; left; reflexivity.
  - apply (proj2 (proj2 (search_schema_bounds
                           [("jql", JStr "x"); ("maxResults", JNum (Fin (inject_Z 101)))]))).
    right; reflexivity.
Defined.

(** ** What is sent *)

Lemma to_json_strings (xs : list string) :
  to_json (strings xs) = Some (JArr (map JStr xs)).
Proof.
  unfold strings; cbn [to_json].
  rewrite map_map; reflexivity.
Qed.

(** C8. [searchIssues(jql, options)] sends a POST to the search path whose
    body is the JSON text of [{jql, maxResults, startAt, fields}], with
    [maxResults] 50 and [startAt] 0 when absent, and with [fields] the fixed
    projection [key, summary, status, assignee, issuetype, priority, project,
    created, updated] when absent and the given list otherwise. *)
Theorem search_request_shape (host : Host) (jiraClient : JiraClient)
    (jql : string) (options : SearchOptions) :
  let maxResults :=
    match opt_maxResults options with Some n => n | None => Fin (inject_Z 50) end in
  let startAt :=
    match opt_startAt options with Some n => n | None => Fin (inject_Z 0) end in
  let fields :=
    match opt_fields options with
    | Some given => given
    | None => ["key"; "summary"; "status"; "assignee"; "issuetype"; "priority";
               "project"; "created"; "updated"]
    end in
  let payload :=
    JObj [("jql", JStr jql); ("maxResults", JNum maxResults);
          ("startAt", JNum startAt); ("fields", JArr (map JStr fields))] in
  let sent :=
    {| method := "POST";
       url := baseUrl jiraClient ++ "/rest/api/2" ++ "/search";
       headers := [("Authorization", authHeader jiraClient);
                   ("Content-Type", "application/json");
                   ("Accept", "application/json")];
       body := Some (render Number_toString_host "" "" payload) |} in
  to_json (searchIssues_body jql options) = Some payload
  /\ outbound jiraClient "POST" "/search" (Some (searchIssues_body jql options)) = sent
  /\ searchIssues jiraClient jql options
     = match fetch sent with
       | Responded response => classify response
       | Failed fetchError => Throw (HostFailure fetchError)
       end.
Proof.
  intros maxResults startAt fields payload sent.
  assert (Hjson : to_json (searchIssues_body jql options) = Some payload).
  { unfold searchIssues_body.
    cbn [to_json flat_map app].
    rewrite to_json_strings.
    reflexivity. }
  assert (Hsent : outbound jiraClient "POST" "/search"
                    (Some (searchIssues_body jql options)) = sent).
  { unfold outbound, JSON_stringify.
    rewrite Hjson.
    reflexivity. }
  split; [exact Hjson | split; [exact Hsent |]].
  unfold searchIssues, request.
  rewrite Hsent.
  destruct (fetch sent); reflexivity.
Qed.

(** ** The query string of [getIssue] *)

Lemma append_empty (s : string) : s ++ "" = s.
Proof.
  induction s as [| c s IH]; simpl; [reflexivity | now rewrite IH].
Qed.

Lemma absent_or_empty (name : string) (xs : option (list string))
    (params : URLSearchParams) :
  xs = None \/ xs = Some [] -> set_joined name xs params = params.
Proof.
  intros [-> | ->]; reflexivity.
Qed.

Lemma non_empty (name : string) (xs : option (list string)) (l : list string)
    (params : URLSearchParams) :
  xs = Some l -> l <> [] ->
  set_joined name xs params = URLSearchParams_set name (join "," l) params.
Proof.
  intros -> H; destruct l; [contradiction | reflexivity].
Qed.

Lemma set_joined_cases (name : string) (xs : option (list string))
    (params : URLSearchParams) :
  set_joined name xs params = params
  \/ exists l, set_joined name xs params = URLSearchParams_set name (join "," l) params.
Proof.
  destruct xs as [[| x l] |]; [left | right; eexists | left]; reflexivity.
Qed.

(** C9. [getIssue] sends a GET without a body.  When [fields] and [expand]
    are both absent or empty the path is exactly [/issue/<idOrKey>]: there
    is no query string and no empty parameter.  A non-empty list is joined
    with commas into the parameter of its name, and the parameters are
    written after a question mark in the form-urlencoded serialization of
    [URLSearchParams]. *)
Theorem get_issue_query (host : Host) (jiraClient : JiraClient)
    (issueIdOrKey : string) (options : IssueOptions) :
  (getIssue jiraClient issueIdOrKey options
   = request jiraClient "GET" (getIssue_endpoint issueIdOrKey options) None
   /\ body (outbound jiraClient "GET" (getIssue_endpoint issueIdOrKey options) None) = None)
  /\ ((opt_issue_fields options = None \/ opt_issue_fields options = Some []) ->
      (opt_issue_expand options = None \/ opt_issue_expand options = Some []) ->
      getIssue_params options = []
      /\ getIssue_endpoint issueIdOrKey options = "/issue/" ++ issueIdOrKey)
  /\ (forall fs,
        opt_issue_fields options = Some fs -> fs <> [] ->
        lookup "fields" (getIssue_params options) = Some (join "," fs)
        /\ getIssue_endpoint issueIdOrKey options
           = "/issue/" ++ issueIdOrKey ++ "?"
             ++ URLSearchParams_toString (getIssue_params options))
  /\ (forall es,
        opt_issue_expand options = Some es -> es <> [] ->
        lookup "expand" (getIssue_params options) = Some (join "," es)
        /\ getIssue_endpoint issueIdOrKey options
           = "/issue/" ++ issueIdOrKey ++ "?"
             ++ URLSearchParams_toString (getIssue_params options))
  /\ ((opt_issue_fields options = None \/ opt_issue_fields options = Some []) ->
      lookup "fields" (getIssue_params options) = None)
  /\ ((opt_issue_expand options = None \/ opt_issue_expand options = Some []) ->
      lookup "expand" (getIssue_params options) = None)
  /\ (forall fs es,
        opt_issue_fields options = Some fs -> fs <> [] ->
        opt_issue_expand options = Some es -> es <> [] ->
        getIssue_endpoint issueIdOrKey options
        = "/issue/" ++ issueIdOrKey ++ "?fields=" ++ urlencode (join "," fs)
          ++ "&expand=" ++ urlencode (join "," es)).
Proof.
  split; [split; reflexivity |].
  split; [| split; [| split; [| split; [| split]]]].
  - intros Hf He.
    unfold getIssue_endpoint, getIssue_params.
    rewrite (absent_or_empty _ _ Hf), (absent_or_empty _ _ He).
    split; [reflexivity |].
    cbn [URLSearchParams_toString map join truthy_string].
    rewrite append_empty; reflexivity.
  - intros fs Hf Hne.
    unfold getIssue_endpoint, getIssue_params.
    rewrite (non_empty _ _ Hf Hne).
    destruct (set_joined_cases "expand" (opt_issue_expand options)
                (URLSearchParams_set "fields" (join "," fs) []))
      as [-> | [l ->]]; split; reflexivity.
  - intros es He Hne.
    unfold getIssue_endpoint, getIssue_params.
    rewrite (non_empty _ _ He Hne).
    destruct (set_joined_cases "fields" (opt_issue_fields options) [])
      as [-> | [l ->]]; split; reflexivity.
  - intros Hf.
    unfold getIssue_params.
    rewrite (absent_or_empty _ _ Hf).
    destruct (set_joined_cases "expand" (opt_issue_expand options) [])
      as [-> | [l ->]]; reflexivity.
  - intros He.
    unfold getIssue_params.
    rewrite (absent_or_empty _ _ He).
    destruct (set_joined_cases "fields" (opt_issue_fields options) [])
      as [-> | [l ->]]; reflexivity.
  - intros fs es Hf Hnf He Hne.
    unfold getIssue_endpoint, getIssue_params.
    rewrite (non_empty _ _ Hf Hnf), (non_empty _ _ He Hne).
    reflexivity.
Qed.

Lemma get_issue_query_witness :
  getIssue_endpoint "PROJ-123" {| opt_issue_fields := None; opt_issue_expand := Some [] |}
  = "/issue/PROJ-123"
  /\ getIssue_endpoint "PROJ-123"
       {| opt_issue_fields := Some ["summary"; "status"];
          opt_issue_expand := Some ["changelog"] |}
     = "/issue/PROJ-123?fields=summary%2Cstatus&expand=changelog"
  /\ lookup "fields"
       (getIssue_params {| opt_issue_fields := Some ["summary"; "status"];
                           opt_issue_expand := Some ["changelog"] |})
     = Some "summary,status".
Proof.
  pose proof (get_issue_query silent_host TestHost.test_client "PROJ-123"
                {| opt_issue_fields := None; opt_issue_expand := Some [] |})
    as (_ & Hnone & _).
  pose proof (get_issue_query silent_host TestHost.test_client "PROJ-123"
                {| opt_issue_fields := Some ["summary"; "status"];
                   opt_issue_expand := Some ["changelog"] |})
    as (_ & _ & Hfields & _ & _ & _ & Hboth).
  split; [| split].
  - apply Hnone; [left | right]; reflexivity.
  - apply (Hboth ["summary"; "status"] ["changelog"]);
      (reflexivity || discriminate).
  - apply (Hfields ["summary"; "status"]); (reflexivity || discriminate).
Defined.

(** ** Absent options *)

Lemma create_body_json (input : CreateIssueInput) :
  to_json (createIssue_body (create_fields input))
  = Some (JObj [("fields", JObj (written_fields input))]).
Proof.
  unfold createIssue_body, CreateIssueFields_value, create_fields, written_fields.
  cbn [project summary issuetype description priority assignee labels components].
  destruct input as [pk su it de pr asg la co].
  cbn [create_projectKey create_summary create_issueType create_description
       create_priority create_assignee create_labels create_components].
  destruct de, (name_if_truthy pr), (name_if_truthy asg), la as [la |], co as [co |];
    cbn [optional option_map present app];
    cbn [to_json flat_map app KeyRef_value NameRef_value key name strings];
    rewrite ?map_map; reflexivity.
Qed.

Ltac split_members H :=
  repeat match type of H with
         | context [?schema (lookup ?k ?props) ?p] =>
             destruct (schema (lookup k props) p)
         end;
  cbn in H; try discriminate H.

(** A key the raw arguments do not have is absent from the validated
    input. *)
Lemma create_parse_absent (props : list (string * json)) (input : CreateIssueInput) :
  parse CreateIssueSchema (Some (JObj props)) = inr input ->
  (lookup "description" props = None -> create_description input = None)
  /\ (lookup "priority" props = None -> create_priority input = None)
  /\ (lookup "assignee" props = None -> create_assignee input = None)
  /\ (lookup "labels" props = None -> create_labels input = None)
  /\ (lookup "components" props = None -> create_components input = None).
Proof.
  intros Hparse.
  unfold parse, CreateIssueSchema, z_object, member in Hparse.
  repeat split; intros Hk; rewrite Hk in Hparse;
    cbn [z_optional] in Hparse;
    split_members Hparse;
    injection Hparse as <-; reflexivity.
Qed.

(** C10. For every valid create input, the body sent is the JSON text of
    [{fields: {...}}], and an optional parameter (description, priority,
    assignee, labels, components) that is absent from the input is absent as
    a key from what is written; no key is written with the value [null]. *)
Theorem absent_options_not_sent (host : Host) (jiraClient : JiraClient)
    (args : option json) (input : CreateIssueInput) :
  parse CreateIssueSchema args = inr input ->
  let sent :=
    outbound jiraClient "POST" "/issue" (Some (createIssue_body (create_fields input))) in
  exists written,
    to_json (createIssue_body (create_fields input))
    = Some (JObj [("fields", JObj written)])
    /\ body sent = Some (render Number_toString_host "" "" (JObj [("fields", JObj written)]))
    /\ handle jiraClient "jira_create_issue" args
       = match fetch sent with
         | Responded response =>
             match classify response with
             | Return result => Return (success result)
             | Throw error => recover error
             end
         | Failed fetchError => recover (HostFailure fetchError)
         end
    /\ (create_description input = None -> lookup "description" written = None)
    /\ (create_priority input = None -> lookup "priority" written = None)
    /\ (create_assignee input = None -> lookup "assignee" written = None)
    /\ (create_labels input = None -> lookup "labels" written = None)
    /\ (create_components input = None -> lookup "components" written = None)
    /\ (forall k v, In (k, v) written -> v <> JNull)
    /\ (forall props k,
          args = Some (JObj props) ->
          In k ["description"; "priority"; "assignee"; "labels"; "components"] ->
          lookup k props = None -> lookup k written = None).
Proof.
  intros Hparse sent.
  assert (Hinput :
            (create_description input = None ->
             lookup "description" (written_fields input) = None)
            /\ (create_priority input = None ->
                lookup "priority" (written_fields input) = None)
            /\ (create_assignee input = None ->
                lookup "assignee" (written_fields input) = None)
            /\ (create_labels input = None ->
                lookup "labels" (written_fields input) = None)
            /\ (create_components input = None ->
                lookup "components" (written_fields input) = None)).
  { unfold written_fields.
    destruct input as [pk su it de pr asg la co].
    cbn [create_projectKey create_summary create_issueType create_description
         create_priority create_assignee create_labels create_components].
    repeat split; intros ->; cbn [name_if_truthy];
      repeat match goal with
             | |- context [option_map _ ?o] => is_var o; destruct o
             | |- context [name_if_truthy ?o] => destruct (name_if_truthy o)
             end;
      reflexivity. }
  destruct Hinput as (Hd & Hp & Ha & Hl & Hc).
  exists (written_fields input).
  split; [apply create_body_json |].
  split.
  { subst sent. unfold outbound, JSON_stringify.
    rewrite create_body_json. reflexivity. }
  split.
  { pick_case. rewrite Hparse. cbn [parse_or_throw bind].
    unfold createIssue, request. fold sent.
    destruct (fetch sent) as [response | f]; [| reflexivity].
    destruct (classify response); reflexivity. }
  do 5 (split; [assumption |]).
  split.
  - intros k v Hin.
    unfold written_fields in Hin.
    destruct (create_description input), (name_if_truthy (create_priority input)),
      (name_if_truthy (create_assignee input)), (create_labels input),
      (create_components input);
      cbn [option_map present app In] in Hin;
      repeat (destruct Hin as [Hin | Hin]; [injection Hin as _ <-; discriminate |]);
      contradiction.
  - intros props k -> Hk Hraw.
    destruct (create_parse_absent _ Hparse) as (Rd & Rp & Ra & Rl & Rc).
    destruct Hk as [<- | [<- | [<- | [<- | [<- | []]]]]]; auto.
Qed.

Lemma absent_options_not_sent_witness :
  exists written,
    to_json (createIssue_body (create_fields create_input))
    = Some (JObj [("fields", JObj written)])
    /\ lookup "description" written = None
    /\ lookup "assignee" written = None
    /\ lookup "labels" written = None.
Proof.
  destruct (@absent_options_not_sent silent_host TestHost.test_client
              create_args create_input eq_refl)
    as (written & Hjson & _ & _ & Hd & _ & Ha & Hl & _).
  exists written.
  split; [exact Hjson |].
  split; [apply Hd; reflexivity |].
  split; [apply Ha; reflexivity | apply Hl; reflexivity].
Defined.


(* ================================================================== *)
(** * Further properties                                                *)
(* ================================================================== *)

Import Startup Compared.

(** ** Reading a schema's verdict backwards *)

Lemma both_inr (A B : Type) (ra : ParseReturn A) (rb : ParseReturn B) (x : A * B) :
  both ra rb = inr x -> ra = inr (fst x) /\ rb = inr (snd x).
Proof.
  destruct ra, rb; simpl; try discriminate.
  intros [= <-]; split; reflexivity.
Qed.

Lemma map_return_inr (A B : Type) (f : A -> B) (r : ParseReturn A) (b : B) :
  map_return f r = inr b -> exists a, r = inr a /\ b = f a.
Proof.
  destruct r; simpl; [discriminate |].
  intros [= <-]; eexists; split; reflexivity.
Qed.

Lemma z_object_inr (A : Type) (shape : list (string * json) -> path -> ParseReturn A)
    (d : option json) (p : path) (a : A) :
  z_object shape d p = inr a -> exists props, d = Some (JObj props) /\ shape props p = inr a.
Proof.
  destruct d as [[| | | | | props] |]; simpl; try discriminate.
  intros H; exists props; split; [reflexivity | exact H].
Qed.

Lemma z_string_inr (d : option json) (p : path) (s : string) :
  z_string d p = inr s <-> d = Some (JStr s).
Proof.
  split.
  - destruct d as [[| | | | |] |]; simpl; try discriminate.
    intros [= <-]; reflexivity.
  - intros ->; reflexivity.
Qed.

Lemma parse_strings_inr (p : path) (xs : list json) (i : nat) (fs : list string) :
  parse_items z_string p i xs = inr fs -> xs = map JStr fs.
Proof.
  revert i fs; induction xs as [| x xs IH]; intros i fs; cbn [parse_items].
  - intros [= <-]; reflexivity.
  - intros H.
    apply map_return_inr in H as ([f fs'] & H & ->).
    apply both_inr in H as [Hx Hxs]; cbn [fst snd] in *.
    apply z_string_inr in Hx; injection Hx as ->.
    rewrite (IH _ _ Hxs); reflexivity.
Qed.

Lemma optional_strings_inr (d : option json) (p : path) (fields : option (list string)) :
  z_optional (z_array z_string) d p = inr fields <-> d = option_map string_array fields.
Proof.
  split.
  - destruct d as [j |]; simpl.
    + intros H.
      apply map_return_inr in H as (fs & H & ->).
      destruct j; simpl in H; try discriminate.
      apply parse_strings_inr in H; subst; reflexivity.
    + intros [= <-]; reflexivity.
  - intros ->; apply optional_strings.
Qed.

(** The verdict on [maxResults]: accepted exactly when it is absent (and
    then 50) or a finite integer between 1 and 100. *)
Lemma maxResults_inr (d : option json) (p : path) (n : number) :
  maxResults_schema d p = inr n <->
  (d = None /\ n = Fin (inject_Z 50))
  \/ exists q, d = Some (JNum (Fin q)) /\ n = Fin q
               /\ is_integer q = true /\ (1 <= q <= 100)%Q.
Proof.
  split.
  - destruct d as [v |].
    + intros H; right.
      destruct v as [| b | [q | | |] | s | xs | props]; try discriminate H.
      exists q.
      unfold maxResults_schema, z_default, z_optional, z_number in H.
      cbn [flat_map run_check Number_isInteger number_lt number_gt] in H.
      change (inject_Z 1) with 1%Q in H; change (inject_Z 100) with 100%Q in H.
      destruct (is_integer q) eqn:Hint; [| discriminate H].
      destruct (Qle_bool 1 q) eqn:Hlo; [| discriminate H].
      destruct (Qle_bool q 100) eqn:Hhi; [| discriminate H].
      injection H as <-.
      apply Qle_bool_iff in Hlo, Hhi.
      repeat split; assumption.
    + intros [= <-]; left; split; reflexivity.
  - intros [[-> ->] | (q & -> & -> & Hint & Hrange)].
    + reflexivity.
    + apply maxResults_accepted; assumption.
Qed.

(** ** The four schemas, characterised *)

(** X1. The search schema accepts exactly the objects whose [jql] is a
    string, whose [maxResults] is absent or an integer between 1 and 100,
    and whose [fields] is absent or an array of strings; the input it gives
    carries these values, with 50 for an absent [maxResults]. *)
Theorem search_schema_accepts (d : option json) (input : SearchIssuesInput) :
  parse SearchIssuesSchema d = inr input <->
  exists props,
    d = Some (JObj props)
    /\ lookup "jql" props = Some (JStr (search_jql input))
    /\ ((lookup "maxResults" props = None /\ search_maxResults input = Fin (inject_Z 50))
        \/ exists q, lookup "maxResults" props = Some (JNum (Fin q))
                     /\ search_maxResults input = Fin q
                     /\ is_integer q = true /\ (1 <= q <= 100)%Q)
    /\ lookup "fields" props = option_map string_array (search_fields input).
Proof.
  unfold parse, SearchIssuesSchema.
  split.
  - intros H.
    apply z_object_inr in H as (props & -> & H).
    apply map_return_inr in H as ([j [m f]] & H & ->).
    apply both_inr in H as [Hj H]; apply both_inr in H as [Hm Hf].
    unfold member in *; cbn [fst snd] in *.
    exists props; cbn [search_jql search_maxResults search_fields].
    split; [reflexivity |].
    split; [apply z_string_inr in Hj; exact Hj |].
    split; [apply maxResults_inr in Hm; exact Hm |].
    apply optional_strings_inr in Hf; exact Hf.
  - intros (props & -> & Hj & Hm & Hf).
    destruct input as [j m f]; cbn [search_jql search_maxResults search_fields] in *.
    unfold z_object, member.
    rewrite (proj2 (z_string_inr _ _ _) Hj).
    rewrite (proj2 (maxResults_inr _ _ _) Hm).
    rewrite (proj2 (optional_strings_inr _ _ _) Hf).
    reflexivity.
Qed.

Lemma search_schema_accepts_witness :
  exists props,
    search_args = Some (JObj props)
    /\ lookup "jql" props = Some (JStr "project = TEST")
    /\ ((lookup "maxResults" props = None /\ Fin (inject_Z 25) = Fin (inject_Z 50))
        \/ exists q, lookup "maxResults" props = Some (JNum (Fin q))
                     /\ Fin (inject_Z 25) = Fin q
                     /\ is_integer q = true /\ (1 <= q <= 100)%Q)
    /\ lookup "fields" props = option_map string_array None.
Proof.
  apply (proj1 (search_schema_accepts search_args
                  {| search_jql := "project = TEST";
                     search_maxResults := Fin (inject_Z 25);
                     search_fields := None |})).
  reflexivity.
Defined.

(** X2. The get schema accepts exactly the objects whose [issueKey] is a
    string and whose [fields] and [expand] are each absent or an array of
    strings, and the input it gives carries these values unchanged. *)
Theorem get_schema_accepts (d : option json) (input : GetIssueInput) :
  parse GetIssueSchema d = inr input <->
  exists props,
    d = Some (JObj props)
    /\ lookup "issueKey" props = Some (JStr (get_issueKey input))
    /\ lookup "fields" props = option_map string_array (get_fields input)
    /\ lookup "expand" props = option_map string_array (get_expand input).
Proof.
  unfold parse, GetIssueSchema.
  split.
  - intros H.
    apply z_object_inr in H as (props & -> & H).
    apply map_return_inr in H as ([k [f e]] & H & ->).
    apply both_inr in H as [Hk H]; apply both_inr in H as [Hf He].
    unfold member in *; cbn [fst snd] in *.
    exists props; cbn [get_issueKey get_fields get_expand].
    split; [reflexivity |].
    split; [apply z_string_inr in Hk; exact Hk |].
    split; [apply optional_strings_inr in Hf; exact Hf |].
    apply optional_strings_inr in He; exact He.
  - intros (props & -> & Hk & Hf & He).
    destruct input as [k f e]; cbn [get_issueKey get_fields get_expand] in *.
    unfold z_object, member.
    rewrite (proj2 (z_string_inr _ _ _) Hk).
    rewrite (proj2 (optional_strings_inr _ _ _) Hf).
    rewrite (proj2 (optional_strings_inr _ _ _) He).
    reflexivity.
Qed.

Lemma get_schema_accepts_witness :
  parse GetIssueSchema get_args
  = inr {| get_issueKey := "PROJ-123"; get_fields := None;
           get_expand := Some ["changelog"] |}.
Proof.
  apply (proj2 (get_schema_accepts get_args
                  {| get_issueKey := "PROJ-123"; get_fields := None;
                     get_expand := Some ["changelog"] |})).
  eexists; repeat split; reflexivity.
Defined.

Lemma optional_string_inr (d : option json) (p : path) (o : option string) :
  z_optional z_string d p = inr o <-> d = option_map JStr o.
Proof.
  split.
  - destruct d as [j |]; cbn [z_optional].
    + intros H.
      apply map_return_inr in H as (s & H & ->).
      apply z_string_inr in H; exact H.
    + intros [= <-]; reflexivity.
  - intros ->; destruct o; reflexivity.
Qed.

Lemma z_enum_inr (d : option json) (p : path) (t : string) :
  z_enum ["group"; "role"] d p = inr t <->
  d = Some (JStr t) /\ (t = "group" \/ t = "role").
Proof.
  split.
  - destruct d as [[| | | s | |] |]; cbn [z_enum]; try discriminate.
    cbn [existsb].
    destruct (String.eqb_spec s "group") as [-> | _].
    + intros [= <-]; split; [reflexivity | left; reflexivity].
    + destruct (String.eqb_spec s "role") as [-> | _]; [| discriminate].
      intros [= <-]; split; [reflexivity | right; reflexivity].
  - intros [-> [-> | ->]]; reflexivity.
Qed.

Lemma visibility_inr (d : option json) (p : path) (o : option Visibility) :
  z_optional VisibilitySchema d p = inr o <-> optional_visibility d o.
Proof.
  split.
  - destruct d as [raw |]; cbn [z_optional].
    + intros H.
      apply map_return_inr in H as (v & H & ->).
      unfold VisibilitySchema in H.
      apply z_object_inr in H as (props & [= ->] & H).
      apply map_return_inr in H as ([t x] & H & ->).
      apply both_inr in H as [Ht Hx].
      unfold member in *; cbn [fst snd] in *.
      apply z_enum_inr in Ht as [Ht Hcase].
      apply z_string_inr in Hx.
      exists props, t; repeat split; assumption.
    + intros [= <-]; exact I.
  - destruct d as [raw |], o as [v |]; cbn [optional_visibility]; try contradiction.
    + intros (props & t & -> & Ht & Hcase & Htype & Hx).
      destruct v as [vt vx]; cbn [visibility_type visibility_value] in *.
      cbn [z_optional]; unfold VisibilitySchema, z_object, member.
      rewrite (proj2 (z_enum_inr _ _ _) (conj Ht Hcase)).
      rewrite (proj2 (z_string_inr _ _ _) Hx).
      cbn [both map_return fst snd]; rewrite Htype; reflexivity.
    + intros _; reflexivity.
Qed.

(** X3. The create schema accepts exactly the objects whose [projectKey],
    [summary] and [issueType] are strings, whose [description], [priority]
    and [assignee] are each absent or a string, and whose [labels] and
    [components] are each absent or an array of strings; the input it gives
    carries these values unchanged. *)
Theorem create_schema_accepts (d : option json) (input : CreateIssueInput) :
  parse CreateIssueSchema d = inr input <->
  exists props,
    d = Some (JObj props)
    /\ lookup "projectKey" props = Some (JStr (create_projectKey input))
    /\ lookup "summary" props = Some (JStr (create_summary input))
    /\ lookup "issueType" props = Some (JStr (create_issueType input))
    /\ lookup "description" props = option_map JStr (create_description input)
    /\ lookup "priority" props = option_map JStr (create_priority input)
    /\ lookup "assignee" props = option_map JStr (create_assignee input)
    /\ lookup "labels" props = option_map string_array (create_labels input)
    /\ lookup "components" props = option_map string_array (create_components input).
Proof.
  unfold parse, CreateIssueSchema.
  split.
  - intros H.
    apply z_object_inr in H as (props & -> & H).
    apply map_return_inr in H as ([pk [su [it [de [pr [asg [la co]]]]]]] & H & ->).
    apply both_inr in H as [Hpk H]; apply both_inr in H as [Hsu H];
      apply both_inr in H as [Hit H]; apply both_inr in H as [Hde H];
      apply both_inr in H as [Hpr H]; apply both_inr in H as [Has H];
      apply both_inr in H as [Hla Hco].
    unfold member in *; cbn [fst snd] in *.
    exists props.
    cbn [create_projectKey create_summary create_issueType create_description
         create_priority create_assignee create_labels create_components].
    split; [reflexivity |].
    split; [apply z_string_inr in Hpk; exact Hpk |].
    split; [apply z_string_inr in Hsu; exact Hsu |].
    split; [apply z_string_inr in Hit; exact Hit |].
    split; [apply optional_string_inr in Hde; exact Hde |].
    split; [apply optional_string_inr in Hpr; exact Hpr |].
    split; [apply optional_string_inr in Has; exact Has |].
    split; [apply optional_strings_inr in Hla; exact Hla |].
    apply optional_strings_inr in Hco; exact Hco.
  - intros (props & -> & Hpk & Hsu & Hit & Hde & Hpr & Has & Hla & Hco).
    destruct input as [pk su it de pr asg la co].
    cbn [create_projectKey create_summary create_issueType create_description
         create_priority create_assignee create_labels create_components] in *.
    unfold z_object, member.
    rewrite (proj2 (z_string_inr _ _ _) Hpk), (proj2 (z_string_inr _ _ _) Hsu),
      (proj2 (z_string_inr _ _ _) Hit), (proj2 (optional_string_inr _ _ _) Hde),
      (proj2 (optional_string_inr _ _ _) Hpr), (proj2 (optional_string_inr _ _ _) Has),
      (proj2 (optional_strings_inr _ _ _) Hla), (proj2 (optional_strings_inr _ _ _) Hco).
    reflexivity.
Qed.

Lemma create_schema_accepts_witness :
  parse CreateIssueSchema create_args = inr create_input.
Proof.
  apply (proj2 (create_schema_accepts create_args create_input)).
  eexists; repeat split; reflexivity.
Defined.

(** X4. The comment schema accepts exactly the objects whose [issueKey]
    and [body] are strings and whose [visibility] is absent or an object
    with [type] ["group"] or ["role"] and a string [value]; any other
    visibility type is rejected. *)
Theorem comment_schema_accepts (d : option json) (input : AddCommentInput) :
  parse AddCommentSchema d = inr input <->
  exists props,
    d = Some (JObj props)
    /\ lookup "issueKey" props = Some (JStr (comment_issueKey input))
    /\ lookup "body" props = Some (JStr (comment_body input))
    /\ optional_visibility (lookup "visibility" props) (comment_visibility input).
Proof.
  unfold parse, AddCommentSchema.
  split.
  - intros H.
    apply z_object_inr in H as (props & -> & H).
    apply map_return_inr in H as ([k [b v]] & H & ->).
    apply both_inr in H as [Hk H]; apply both_inr in H as [Hb Hv].
    unfold member in *; cbn [fst snd] in *.
    exists props; cbn [comment_issueKey comment_body comment_visibility].
    split; [reflexivity |].
    split; [apply z_string_inr in Hk; exact Hk |].
    split; [apply z_string_inr in Hb; exact Hb |].
    apply visibility_inr in Hv; exact Hv.
  - intros (props & -> & Hk & Hb & Hv).
    destruct input as [k b v]; cbn [comment_issueKey comment_body comment_visibility] in *.
    unfold z_object, member.
    rewrite (proj2 (z_string_inr _ _ _) Hk), (proj2 (z_string_inr _ _ _) Hb),
      (proj2 (visibility_inr _ _ _) Hv).
    reflexivity.
Qed.

Lemma comment_schema_accepts_witness :
  parse AddCommentSchema restricted_comment_args
  = inr {| comment_issueKey := "PROJ-123"; comment_body := "hello";
           comment_visibility :=
             Some {| visibility_type := role; visibility_value := "Developers" |} |}.
Proof.
  apply (proj2 (comment_schema_accepts restricted_comment_args
                  {| comment_issueKey := "PROJ-123"; comment_body := "hello";
                     comment_visibility :=
                       Some {| visibility_type := role;
                               visibility_value := "Developers" |} |})).
  eexists; split; [reflexivity |].
  split; [reflexivity |].
  split; [reflexivity |].
  exists [("type", JStr "role"); ("value", JStr "Developers")], "role".
  repeat split; try reflexivity.
  right; reflexivity.
Defined.

(** ** One call, one request *)

Section OneRequest.

Context {host : Host}.
Variable jiraClient : JiraClient.

Lemma Some_inj (A : Type) (x y : A) : Some x = Some y -> x = y.
Proof.
  intros H; injection H as ->; reflexivity.
Qed.

(** A call whose arguments validate is the envelope of what comes back for
    the one request the client sends. *)
Lemma handle_factors (name : string) (args : option json) (req : Request) :
  sent_request jiraClient name args = Some req ->
  handle jiraClient name args
  = match fetch req with
    | Responded response =>
        match classify response with
        | Return result => Return (success result)
        | Throw error => recover error
        end
    | Failed fetchError => Return (failure_text ("Error: " ++ message_of fetchError))
    end.
Proof.
  unfold sent_request, handle, dispatch.
  destruct (String.eqb name "jira_search_issues");
    [| destruct (String.eqb name "jira_get_issue");
       [| destruct (String.eqb name "jira_create_issue");
          [| destruct (String.eqb name "jira_add_comment"); [| discriminate]]]].
  all: match goal with
       | |- context [parse ?schema ?a] => destruct (parse schema a) as [issues | input]
       end; [discriminate |].
  all: intros Hreq; apply Some_inj in Hreq; cbn [parse_or_throw bind].
  all: unfold searchIssues, getIssue, createIssue, addComment, request.
  all: rewrite Hreq.
  all: destruct (fetch req) as [response | f]; [| reflexivity].
  all: destruct (classify response); reflexivity.
Qed.

(** What [dispatch] returns is the success envelope of some result. *)
Lemma dispatch_returns (name : string) (args : option json) (r : CallToolResult) :
  dispatch jiraClient name args = Return r -> exists result, r = success result.
Proof.
  unfold dispatch.
  destruct (String.eqb name "jira_search_issues");
    [| destruct (String.eqb name "jira_get_issue");
       [| destruct (String.eqb name "jira_create_issue");
          [| destruct (String.eqb name "jira_add_comment"); [| discriminate]]]].
  all: match goal with
       | |- context [parse ?schema ?a] => destruct (parse schema a) as [issues | input]
       end; [discriminate |].
  all: cbn [parse_or_throw bind].
  all: match goal with
       | |- context [bind ?c _] => destruct c as [result | e]
       end; [| discriminate].
  all: intros [= <-]; exists result; reflexivity.
Qed.

End OneRequest.

(** X5. When the network call itself fails, a call with valid arguments
    still ends in an envelope (nothing is thrown): its error flag is set and
    its text is ["Error: "] followed by the failure's message, or by
    ["Unknown error occurred"] when what was thrown is not an [Error]. *)
Theorem transport_failure_envelope (host : Host) (jiraClient : JiraClient)
    (name : string) (args : option json) (req : Request) :
  sent_request jiraClient name args = Some req ->
  (forall kind message,
     fetch req = Failed (ErrorObject kind message) ->
     handle jiraClient name args
     = Return {| content := [{| type := "text"; content_text := "Error: " ++ message |}];
                 isError := Some true |})
  /\ (forall v,
        fetch req = Failed (Thrown v) ->
        handle jiraClient name args
        = Return {| content := [{| type := "text";
                                   content_text := "Error: Unknown error occurred" |}];
                    isError := Some true |}).
Proof.
  intros Hsent.
  split; [intros kind message Hfetch | intros v Hfetch];
    rewrite (handle_factors _ _ _ Hsent), Hfetch; reflexivity.
Qed.

Lemma transport_failure_envelope_witness :
  @handle unreachable_host TestHost.test_client "jira_get_issue" get_args
  = Return {| content := [{| type := "text"; content_text := "Error: fetch failed" |}];
              isError := Some true |}.
Proof.
  apply (proj1 (@transport_failure_envelope unreachable_host TestHost.test_client
                  "jira_get_issue" get_args
                  (@outbound unreachable_host TestHost.test_client "GET"
                     "/issue/PROJ-123?expand=changelog" None)
                  eq_refl)
           "TypeError" "fetch failed").
  reflexivity.
Defined.

(** X6. For a call with valid arguments answered in the range 200-299
    with a status other than 204 and a body that is not empty: when the body
    parses, the envelope carries no error flag and its text is the parsed
    value written with two-space indentation; when it does not parse, the
    envelope carries the error flag and the text ["Error: "] followed by the
    parser's message.  It is never reported as a Jira API error. *)
Theorem answered_call_envelope (host : Host) (jiraClient : JiraClient)
    (name : string) (args : option json) (req : Request) (response : Response) :
  sent_request jiraClient name args = Some req ->
  fetch req = Responded response ->
  (200 <= status response <= 299)%Z ->
  status response <> 204 ->
  text response <> "" ->
  (forall result,
     JSON_parse (text response) = inr result ->
     handle jiraClient name args
     = Return {| content := [{| type := "text";
                                content_text := render Number_toString_host "  " "" result |}];
                 isError := None |})
  /\ (forall why,
        JSON_parse (text response) = inl why ->
        handle jiraClient name args
        = Return {| content := [{| type := "text"; content_text := "Error: " ++ why |}];
                    isError := Some true |}).
Proof.
  intros Hsent Hfetch Hrange H204 Htext.
  rewrite (handle_factors _ _ _ Hsent), Hfetch.
  unfold classify.
  assert (Hok : ok response = true).
  { destruct (ok response) eqn:E; [reflexivity |].
    apply ok_range in E; contradiction. }
  rewrite Hok; cbn [negb].
  assert (H1 : (status response =? 204)%Z = false) by (apply Z.eqb_neq; exact H204).
  assert (H2 : truthy_string (text response) = true)
    by (destruct (text response); [contradiction | reflexivity]).
  rewrite H1, H2; cbn [negb orb].
  split; [intros result Hparse | intros why Hparse]; rewrite Hparse; reflexivity.
Qed.

Lemma answered_call_envelope_witness :
  @handle issue_host TestHost.test_client "jira_get_issue" get_args
  = Return {| content :=
                [{| type := "text";
                    content_text :=
                      @render (@Number_toString_host issue_host) "  " ""
                        (JObj [("key", JStr "PROJ-123")]) |}];
              isError := None |}
  /\ @handle html_host TestHost.test_client "jira_get_issue" get_args
     = Return {| content :=
                   [{| type := "text";
                       content_text := "Error: Unexpected token or end of JSON input" |}];
                 isError := Some true |}.
Proof.
  split.
  - apply (proj1 (@answered_call_envelope issue_host TestHost.test_client
                    "jira_get_issue" get_args
                    (@outbound issue_host TestHost.test_client "GET"
                       "/issue/PROJ-123?expand=changelog" None)
                    {| status := 200; statusText := "OK"; text := issue_text |}
                    eq_refl eq_refl ltac:(simpl; lia) ltac:(discriminate)
                    ltac:(discriminate))).
    reflexivity.
  - apply (proj2 (@answered_call_envelope html_host TestHost.test_client
                    "jira_get_issue" get_args
                    (@outbound html_host TestHost.test_client "GET"
                       "/issue/PROJ-123?expand=changelog" None)
                    {| status := 200; statusText := "OK"; text := "<html>" |}
                    eq_refl eq_refl ltac:(simpl; lia) ltac:(discriminate)
                    ltac:(discriminate))).
    reflexivity.
Defined.

(** X7. Every envelope [handle] returns has exactly one content block, of
    type ["text"].  It carries no error flag exactly when the work inside
    returned, and then the text is the result written with two-space
    indentation; otherwise the flag is true and the text starts with
    ["Jira API Error: "] when a [JiraClientError] was thrown and with
    ["Error: "] for anything else. *)
Theorem envelope_classification (host : Host) (jiraClient : JiraClient)
    (name : string) (args : option json) (envelope : CallToolResult) :
  handle jiraClient name args = Return envelope ->
  exists text,
    content envelope = [{| type := "text"; content_text := text |}]
    /\ ((isError envelope = None
         /\ exists result,
              dispatch jiraClient name args = Return envelope
              /\ text = render Number_toString_host "  " "" result)
        \/ (isError envelope = Some true
            /\ exists message statusCode jiraErrors,
                 dispatch jiraClient name args
                 = Throw (JiraClientError message statusCode jiraErrors)
                 /\ text = "Jira API Error: " ++ message)
        \/ (isError envelope = Some true
            /\ exists error message,
                 dispatch jiraClient name args = Throw error
                 /\ (forall m sc je, error <> JiraClientError m sc je)
                 /\ text = "Error: " ++ message)).
Proof.
  unfold handle.
  destruct (dispatch jiraClient name args) as [r | error] eqn:E.
  - intros [= <-].
    destruct (dispatch_returns _ _ _ E) as [result ->].
    eexists; split; [reflexivity |].
    left; split; [reflexivity |].
    exists result; split; reflexivity.
  - destruct error as [message sc je | code message | issues | f]; cbn [recover].
    + intros [= <-].
      eexists; split; [reflexivity |].
      right; left; split; [reflexivity |].
      exists message, sc, je; split; reflexivity.
    + discriminate.
    + intros [= <-].
      eexists; split; [reflexivity |].
      right; right; split; [reflexivity |].
      eexists; eexists; split; [reflexivity |].
      split; [discriminate | reflexivity].
    + intros [= <-].
      eexists; split; [reflexivity |].
      right; right; split; [reflexivity |].
      eexists; eexists; split; [reflexivity |].
      split; [discriminate | reflexivity].
Qed.

Lemma envelope_classification_witness :
  exists text,
    content (failure_text "Jira API Error: JQL is invalid")
    = [{| type := "text"; content_text := text |}]
    /\ ((isError (failure_text "Jira API Error: JQL is invalid") = None
         /\ exists result,
              @dispatch rejecting_host TestHost.test_client "jira_search_issues"
                bad_search_args
              = Return (failure_text "Jira API Error: JQL is invalid")
              /\ text = @render (@Number_toString_host rejecting_host) "  " "" result)
        \/ (isError (failure_text "Jira API Error: JQL is invalid") = Some true
            /\ exists message statusCode jiraErrors,
                 @dispatch rejecting_host TestHost.test_client "jira_search_issues"
                   bad_search_args
                 = Throw (JiraClientError message statusCode jiraErrors)
                 /\ text = "Jira API Error: " ++ message)
        \/ (isError (failure_text "Jira API Error: JQL is invalid") = Some true
            /\ exists error message,
                 @dispatch rejecting_host TestHost.test_client "jira_search_issues"
                   bad_search_args = Throw error
                 /\ (forall m sc je, error <> JiraClientError m sc je)
                 /\ text = "Error: " ++ message)).
Proof.
  apply (@envelope_classification rejecting_host TestHost.test_client
           "jira_search_issues" bad_search_args
           (failure_text "Jira API Error: JQL is invalid")).
  reflexivity.
Defined.

(** X8. When the tool is unknown or its arguments do not validate, the
    outcome of [handle] is the same whatever the backend would answer: no
    request is made before the name is known and the arguments are
    valid. *)
Theorem no_request_without_valid_arguments (host : Host) (jiraClient : JiraClient)
    (name : string) (args : option json)
    (backend backend' : Request -> fetch_outcome) :
  @sent_request host jiraClient name args = None ->
  @handle (with_backend host backend) jiraClient name args
  = @handle (with_backend host backend') jiraClient name args.
Proof.
  unfold sent_request, handle, dispatch.
  destruct (String.eqb name "jira_search_issues");
    [| destruct (String.eqb name "jira_get_issue");
       [| destruct (String.eqb name "jira_create_issue");
          [| destruct (String.eqb name "jira_add_comment"); [| reflexivity]]]].
  all: match goal with
       | |- context [parse ?schema ?a] => destruct (parse schema a) as [issues | input]
       end; [reflexivity | discriminate].
Qed.

Lemma no_request_without_valid_arguments_witness :
  @handle (with_backend silent_host (TestHost.answer 200 "OK" issue_text))
    TestHost.test_client "jira_search_issues" (Some (JObj []))
  = @handle (with_backend silent_host (fun _ => Failed (Thrown JNull)))
      TestHost.test_client "jira_search_issues" (Some (JObj [])).
Proof.
  apply (@no_request_without_valid_arguments silent_host TestHost.test_client
           "jira_search_issues" (Some (JObj []))).
  reflexivity.
Defined.

(** ** From the raw arguments to the wire *)

Lemma visibility_type_round_trip (t : string) :
  t = "group" \/ t = "role" ->
  VisibilityType_string (VisibilityType_of_string t) = t.
Proof.
  intros [-> | ->]; reflexivity.
Qed.

(** X9. Every search the dispatcher sends is a POST to the search path with
    the three standard headers, whose body is the JSON text of [{jql,
    maxResults, startAt, fields}] with the [jql] of the arguments, a
    [maxResults] that is an integer between 1 and 100 (that of the
    arguments, 50 without one), [startAt] 0, and the [fields] of the
    arguments or the default projection without them. *)
Theorem search_on_the_wire (host : Host) (jiraClient : JiraClient)
    (args : option json) (req : Request) :
  sent_request jiraClient "jira_search_issues" args = Some req ->
  exists props jql q fields,
    args = Some (JObj props)
    /\ lookup "jql" props = Some (JStr jql)
    /\ ((lookup "maxResults" props = None /\ q = inject_Z 50)
        \/ lookup "maxResults" props = Some (JNum (Fin q)))
    /\ is_integer q = true /\ (1 <= q <= 100)%Q
    /\ ((lookup "fields" props = None /\ fields = default_fields)
        \/ lookup "fields" props = Some (string_array fields))
    /\ req = {| method := "POST";
                url := baseUrl jiraClient ++ "/rest/api/2" ++ "/search";
                headers := standard_headers jiraClient;
                body := Some (render Number_toString_host "" ""
                                (JObj [("jql", JStr jql);
                                       ("maxResults", JNum (Fin q));
                                       ("startAt", JNum (Fin (inject_Z 0)));
                                       ("fields", JArr (map JStr fields))])) |}.
Proof.
  unfold sent_request; cbv beta iota delta [String.eqb Ascii.eqb Bool.eqb].
  destruct (parse SearchIssuesSchema args) as [issues | input] eqn:Hparse; [discriminate |].
  intros Hreq; apply Some_inj in Hreq; subst req.
  apply search_schema_accepts in Hparse as (props & -> & Hjql & Hmax & Hfields).
  destruct input as [jql n fields]; cbn [search_jql search_maxResults search_fields] in *.
  assert (Hq : exists q,
             n = Fin q
             /\ ((lookup "maxResults" props = None /\ q = inject_Z 50)
                 \/ lookup "maxResults" props = Some (JNum (Fin q)))
             /\ is_integer q = true /\ (1 <= q <= 100)%Q).
  { destruct Hmax as [[Hnone ->] | (q & Hsome & -> & Hint & Hrange)].
    - exists (inject_Z 50); split; [reflexivity |].
      split; [left; split; [exact Hnone | reflexivity] |].
      split; [reflexivity | split; discriminate].
    - exists q; repeat split; try assumption; try apply Hrange.
      right; exact Hsome. }
  destruct Hq as (q & -> & Hcase & Hint & Hrange).
  exists props, jql, q, (nullish fields default_fields).
  split; [reflexivity |].
  split; [exact Hjql |].
  split; [exact Hcase |].
  split; [exact Hint |].
  split; [exact Hrange |].
  split.
  - destruct fields as [fs |]; [right | left; split]; try reflexivity; exact Hfields.
  - unfold outbound, JSON_stringify, searchIssues_body, standard_headers, url_of.
    cbn [to_json flat_map app nullish opt_maxResults opt_startAt opt_fields
         truthy_value option_map].
    rewrite to_json_strings.
    reflexivity.
Qed.

Lemma search_on_the_wire_witness :
  exists props jql q fields,
    search_args = Some (JObj props)
    /\ lookup "jql" props = Some (JStr jql)
    /\ ((lookup "maxResults" props = None /\ q = inject_Z 50)
        \/ lookup "maxResults" props = Some (JNum (Fin q)))
    /\ is_integer q = true /\ (1 <= q <= 100)%Q
    /\ ((lookup "fields" props = None /\ fields = default_fields)
        \/ lookup "fields" props = Some (string_array fields))
    /\ @outbound silent_host TestHost.test_client "POST" "/search"
         (Some (searchIssues_body "project = TEST"
                  {| opt_maxResults := Some (Fin (inject_Z 25));
                     opt_startAt := None;
                     opt_fields := None |}))
       = {| method := "POST";
            url := baseUrl TestHost.test_client ++ "/rest/api/2" ++ "/search";
            headers := standard_headers TestHost.test_client;
            body := Some (@render (@Number_toString_host silent_host) "" ""
                            (JObj [("jql", JStr jql);
                                   ("maxResults", JNum (Fin q));
                                   ("startAt", JNum (Fin (inject_Z 0)));
                                   ("fields", JArr (map JStr fields))])) |}.
Proof.
  apply (@search_on_the_wire silent_host TestHost.test_client search_args).
  reflexivity.
Defined.

(** X10. Every get the dispatcher sends is a GET without a body, with the
    three standard headers, to [/issue/<issueKey>] followed by a query
    string; when the arguments hold no [fields] and no [expand], or empty
    ones, the address is exactly [<base>/rest/api/2/issue/<issueKey>]. *)
Theorem get_on_the_wire (host : Host) (jiraClient : JiraClient)
    (args : option json) (req : Request) :
  sent_request jiraClient "jira_get_issue" args = Some req ->
  exists props issueKey query,
    args = Some (JObj props)
    /\ lookup "issueKey" props = Some (JStr issueKey)
    /\ req = {| method := "GET";
                url := baseUrl jiraClient ++ "/rest/api/2" ++ "/issue/" ++ issueKey ++ query;
                headers := standard_headers jiraClient;
                body := None |}
    /\ ((lookup "fields" props = None \/ lookup "fields" props = Some (JArr [])) ->
        (lookup "expand" props = None \/ lookup "expand" props = Some (JArr [])) ->
        query = "").
Proof.
  unfold sent_request; cbv beta iota delta [String.eqb Ascii.eqb Bool.eqb].
  destruct (parse GetIssueSchema args) as [issues | input] eqn:Hparse; [discriminate |].
  intros Hreq; apply Some_inj in Hreq; subst req.
  apply get_schema_accepts in Hparse as (props & -> & Hkey & Hfields & Hexpand).
  destruct input as [k fs es]; cbn [get_issueKey get_fields get_expand] in *.
  set (options := {| opt_issue_fields := fs; opt_issue_expand := es |}).
  exists props, k,
    (if truthy_string (URLSearchParams_toString (getIssue_params options))
     then "?" ++ URLSearchParams_toString (getIssue_params options) else "").
  split; [reflexivity |].
  split; [exact Hkey |].
  split; [reflexivity |].
  intros Hf He.
  assert (Hfs : fs = None \/ fs = Some []).
  { rewrite Hfields in Hf.
    destruct fs as [[| f l] |]; [right | | left]; try reflexivity.
    destruct Hf as [Hf | Hf]; discriminate Hf. }
  assert (Hes : es = None \/ es = Some []).
  { rewrite Hexpand in He.
    destruct es as [[| e l] |]; [right | | left]; try reflexivity.
    destruct He as [He | He]; discriminate He. }
  unfold getIssue_params, options; cbn [opt_issue_fields opt_issue_expand].
  rewrite (absent_or_empty _ _ Hfs), (absent_or_empty _ _ Hes).
  reflexivity.
Qed.

Lemma get_on_the_wire_witness :
  exists props issueKey query,
    get_args = Some (JObj props)
    /\ lookup "issueKey" props = Some (JStr issueKey)
    /\ @outbound silent_host TestHost.test_client "GET" "/issue/PROJ-123?expand=changelog" None
       = {| method := "GET";
            url := baseUrl TestHost.test_client ++ "/rest/api/2" ++ "/issue/" ++ issueKey
                   ++ query;
            headers := standard_headers TestHost.test_client;
            body := None |}
    /\ ((lookup "fields" props = None \/ lookup "fields" props = Some (JArr [])) ->
        (lookup "expand" props = None \/ lookup "expand" props = Some (JArr [])) ->
        query = "").
Proof.
  apply (@get_on_the_wire silent_host TestHost.test_client get_args).
  reflexivity.
Defined.

(** X11. Every comment the dispatcher sends is a POST to
    [/issue/<issueKey>/comment] with the three standard headers, whose body
    is the JSON text of [{body}] when the arguments hold no [visibility] and
    of [{body, visibility: {type, value}}] otherwise, with the [body], the
    [type] and the [value] of the arguments. *)
Theorem comment_on_the_wire (host : Host) (jiraClient : JiraClient)
    (args : option json) (req : Request) :
  sent_request jiraClient "jira_add_comment" args = Some req ->
  exists props issueKey text written,
    args = Some (JObj props)
    /\ lookup "issueKey" props = Some (JStr issueKey)
    /\ lookup "body" props = Some (JStr text)
    /\ req = {| method := "POST";
                url := baseUrl jiraClient ++ "/rest/api/2"
                       ++ "/issue/" ++ issueKey ++ "/comment";
                headers := standard_headers jiraClient;
                body := Some (render Number_toString_host "" ""
                                (JObj (("body", JStr text) :: written))) |}
    /\ (lookup "visibility" props = None -> written = [])
    /\ (forall raw,
          lookup "visibility" props = Some raw ->
          exists t v,
            get_property (Some raw) "type" = Some (JStr t)
            /\ get_property (Some raw) "value" = Some (JStr v)
            /\ written = [("visibility", JObj [("type", JStr t); ("value", JStr v)])]).
Proof.
  unfold sent_request; cbv beta iota delta [String.eqb Ascii.eqb Bool.eqb].
  destruct (parse AddCommentSchema args) as [issues | input] eqn:Hparse; [discriminate |].
  intros Hreq; apply Some_inj in Hreq; subst req.
  apply comment_schema_accepts in Hparse as (props & -> & Hkey & Hbody & Hvis).
  destruct input as [k b v]; cbn [comment_issueKey comment_body comment_visibility] in *.
  exists props, k, b, (written_visibility v).
  split; [reflexivity |].
  split; [exact Hkey |].
  split; [exact Hbody |].
  split.
  { unfold outbound, JSON_stringify, addComment_payload, standard_headers, url_of.
    destruct v as [[vt vx] |]; reflexivity. }
  split.
  - intros Hnone; rewrite Hnone in Hvis.
    destruct v; [contradiction | reflexivity].
  - intros raw Hraw; rewrite Hraw in Hvis.
    destruct v as [x |]; [| contradiction].
    destruct Hvis as (vprops & t & -> & Ht & Hcase & Htype & Hx).
    exists t, (visibility_value x).
    split; [exact Ht |].
    split; [exact Hx |].
    cbn [written_visibility].
    rewrite Htype, (visibility_type_round_trip Hcase).
    reflexivity.
Qed.

Lemma comment_on_the_wire_witness :
  exists props issueKey text written,
    restricted_comment_args = Some (JObj props)
    /\ lookup "issueKey" props = Some (JStr issueKey)
    /\ lookup "body" props = Some (JStr text)
    /\ @outbound silent_host TestHost.test_client "POST" "/issue/PROJ-123/comment"
         (Some (addComment_payload "hello"
                  (Some {| visibility_type := role; visibility_value := "Developers" |})))
       = {| method := "POST";
            url := baseUrl TestHost.test_client ++ "/rest/api/2"
                   ++ "/issue/" ++ issueKey ++ "/comment";
            headers := standard_headers TestHost.test_client;
            body := Some (@render (@Number_toString_host silent_host) "" ""
                            (JObj (("body", JStr text) :: written))) |}
    /\ (lookup "visibility" props = None -> written = [])
    /\ (forall raw,
          lookup "visibility" props = Some raw ->
          exists t v,
            get_property (Some raw) "type" = Some (JStr t)
            /\ get_property (Some raw) "value" = Some (JStr v)
            /\ written = [("visibility", JObj [("type", JStr t); ("value", JStr v)])]).
Proof.
  apply (@comment_on_the_wire silent_host TestHost.test_client restricted_comment_args).
  reflexivity.
Defined.

Lemma map_JStr_inj (xs ys : list string) : map JStr xs = map JStr ys -> xs = ys.
Proof.
  revert ys; induction xs as [| x xs IH]; intros [| y ys]; simpl;
    intros H; try discriminate H; [reflexivity |].
  injection H as -> H; f_equal; apply IH; exact H.
Qed.

Ltac settle_written :=
  repeat match goal with
         | |- context [option_map _ ?o] =>
             lazymatch o with
             | None => fail
             | Some _ => fail
             | _ => destruct o
             end
         end;
  reflexivity.

(** X12. What the create call writes for a valid input: [project],
    [summary] and [issuetype] are always written, from the arguments;
    [description] and [labels] are written exactly as given, the empty
    string and the empty list included; [assignee] is written as
    [{name: ...}] when it is given and not empty and is left out when it is
    absent or empty; [components] are written as an array of [{name: ...}]. *)
Theorem create_on_the_wire (host : Host) (jiraClient : JiraClient)
    (args : option json) (req : Request) :
  sent_request jiraClient "jira_create_issue" args = Some req ->
  exists props written,
    args = Some (JObj props)
    /\ req = {| method := "POST";
                url := baseUrl jiraClient ++ "/rest/api/2" ++ "/issue";
                headers := standard_headers jiraClient;
                body := Some (render Number_toString_host "" ""
                                (JObj [("fields", JObj written)])) |}
    /\ (exists projectKey,
          lookup "projectKey" props = Some (JStr projectKey)
          /\ lookup "project" written = Some (JObj [("key", JStr projectKey)]))
    /\ lookup "summary" written = lookup "summary" props
    /\ (exists issueType,
          lookup "issueType" props = Some (JStr issueType)
          /\ lookup "issuetype" written = Some (JObj [("name", JStr issueType)]))
    /\ lookup "description" written = lookup "description" props
    /\ lookup "labels" written = lookup "labels" props
    /\ (forall a, lookup "assignee" props = Some (JStr a) -> a <> "" ->
                  lookup "assignee" written = Some (JObj [("name", JStr a)]))
    /\ (lookup "assignee" props = None \/ lookup "assignee" props = Some (JStr "") ->
        lookup "assignee" written = None)
    /\ (forall cs, lookup "components" props = Some (string_array cs) ->
                   lookup "components" written
                   = Some (JArr (map (fun c => JObj [("name", JStr c)]) cs))).
Proof.
  unfold sent_request; cbv beta iota delta [String.eqb Ascii.eqb Bool.eqb].
  destruct (parse CreateIssueSchema args) as [issues | input] eqn:Hparse; [discriminate |].
  intros Hreq; apply Some_inj in Hreq; subst req.
  apply create_schema_accepts in Hparse
    as (props & -> & Hpk & Hsu & Hit & Hde & Hpr & Has & Hla & Hco).
  exists props, (written_fields input).
  split; [reflexivity |].
  split.
  { unfold outbound, JSON_stringify.
    rewrite create_body_json.
    reflexivity. }
  destruct input as [pk su it de pr asg la co].
  cbn [create_projectKey create_summary create_issueType create_description
       create_priority create_assignee create_labels create_components] in *.
  unfold written_fields.
  cbn [create_projectKey create_summary create_issueType create_description
       create_priority create_assignee create_labels create_components].
  rewrite Hsu, Hde, Hla.
  split; [exists pk; split; [exact Hpk | reflexivity] |].
  split; [reflexivity |].
  split; [exists it; split; [exact Hit | reflexivity] |].
  split; [settle_written |].
  split; [settle_written |].
  split; [| split].
  - intros a Ha Hne.
    rewrite Has in Ha.
    destruct asg as [a' |]; [| discriminate Ha].
    injection Ha as ->.
    destruct a; [contradiction |].
    cbn [name_if_truthy truthy_string].
    settle_written.
  - intros Hcase.
    assert (Hnone : name_if_truthy asg = None).
    { rewrite Has in Hcase.
      destruct asg as [[| c a] |]; try reflexivity.
      destruct Hcase as [H | H]; discriminate H. }
    rewrite Hnone.
    settle_written.
  - intros cs Hcs.
    rewrite Hco in Hcs.
    destruct co as [cs' |]; [| discriminate Hcs].
    assert (cs' = cs) as -> by (injection Hcs as Hcs; apply map_JStr_inj; exact Hcs).
    settle_written.
Qed.

Lemma create_on_the_wire_witness :
  exists props written,
    create_args = Some (JObj props)
    /\ @outbound silent_host TestHost.test_client "POST" "/issue"
         (Some (createIssue_body (create_fields create_input)))
       = {| method := "POST";
            url := baseUrl TestHost.test_client ++ "/rest/api/2" ++ "/issue";
            headers := standard_headers TestHost.test_client;
            body := Some (@render (@Number_toString_host silent_host) "" ""
                            (JObj [("fields", JObj written)])) |}
    /\ lookup "summary" written = lookup "summary" props
    /\ lookup "description" written = lookup "description" props.
Proof.
  destruct (@create_on_the_wire silent_host TestHost.test_client create_args
              (@outbound silent_host TestHost.test_client "POST" "/issue"
                 (Some (createIssue_body (create_fields create_input))))
              eq_refl)
    as (props & written & Hargs & Hreq & _ & Hsummary & _ & Hdescription & _).
  exists props, written.
  repeat split; assumption.
Defined.

(** ** Configuration and start-up *)

(** X13. A configuration is returned only from an environment that holds
    a non-empty base address and non-empty credentials for the chosen mode,
    and it carries exactly these values; the mode is PAT when
    [JIRA_AUTH_TYPE] is unset, empty or ["pat"], and basic when it is
    ["basic"].  In every other case [getConfig] throws a plain [Error]. *)
Theorem getConfig_sound (env : Env) :
  (forall config,
     getConfig env = Return config ->
     env "JIRA_BASE_URL" = Some (config_baseUrl config)
     /\ config_baseUrl config <> ""
     /\ match config_auth config with
        | pat token =>
            env "JIRA_PAT" = Some token /\ token <> ""
            /\ (given (env "JIRA_AUTH_TYPE") = None \/ env "JIRA_AUTH_TYPE" = Some "pat")
        | basic username password =>
            env "JIRA_AUTH_TYPE" = Some "basic"
            /\ env "JIRA_USERNAME" = Some username /\ username <> ""
            /\ env "JIRA_PASSWORD" = Some password /\ password <> ""
        end)
  /\ (forall error,
        getConfig env = Throw error ->
        exists message, error = HostFailure (ErrorObject "Error" message)).
Proof.
  assert (Hgiven : forall v s, given v = Some s -> v = Some s /\ s <> "").
  { intros [[| c v] |] s; simpl; try discriminate.
    intros [= <-]; split; [reflexivity | discriminate]. }
  unfold getConfig.
  destruct (given (env "JIRA_BASE_URL")) as [baseUrl |] eqn:Hbase.
  2: { split; [discriminate |].
       intros error [= <-]; eexists; reflexivity. }
  apply Hgiven in Hbase as [Hbase Hne].
  destruct (given (env "JIRA_AUTH_TYPE")) as [authType |] eqn:Hauth.
  - apply Hgiven in Hauth as [Hauth _].
    destruct (String.eqb_spec authType "pat") as [-> | _].
    + destruct (given (env "JIRA_PAT")) as [token |] eqn:Htoken.
      * apply Hgiven in Htoken as [Htoken Hnt].
        split; [| discriminate].
        intros config [= <-]; cbn [config_baseUrl config_auth].
        repeat split; try assumption.
        right; exact Hauth.
      * split; [discriminate |].
        intros error [= <-]; eexists; reflexivity.
    + destruct (String.eqb_spec authType "basic") as [-> | _].
      * destruct (given (env "JIRA_USERNAME")) as [username |] eqn:Hu;
          destruct (given (env "JIRA_PASSWORD")) as [password |] eqn:Hp.
        2-4: split; [discriminate | intros error [= <-]; eexists; reflexivity].
        apply Hgiven in Hu as [Hu Hnu]; apply Hgiven in Hp as [Hp Hnp].
        split; [| discriminate].
        intros config [= <-]; cbn [config_baseUrl config_auth].
        repeat split; assumption.
      * split; [discriminate |].
        intros error [= <-]; eexists; reflexivity.
  - cbv beta iota delta [String.eqb Ascii.eqb Bool.eqb].
    destruct (given (env "JIRA_PAT")) as [token |] eqn:Htoken.
    + apply Hgiven in Htoken as [Htoken Hnt].
      split; [| discriminate].
      intros config [= <-]; cbn [config_baseUrl config_auth].
      repeat split; try assumption.
      left; reflexivity.
    + split; [discriminate |].
      intros error [= <-]; eexists; reflexivity.
Qed.

Lemma getConfig_sound_witness :
  basic_env "JIRA_BASE_URL" = Some "https://jira.example.com"
  /\ "https://jira.example.com" <> ""
  /\ basic_env "JIRA_AUTH_TYPE" = Some "basic"
  /\ basic_env "JIRA_USERNAME" = Some "alice" /\ "alice" <> ""
  /\ basic_env "JIRA_PASSWORD" = Some "wonderland" /\ "wonderland" <> "".
Proof.
  apply (proj1 (getConfig_sound basic_env)
           {| config_baseUrl := "https://jira.example.com";
              config_auth := basic "alice" "wonderland" |}).
  reflexivity.
Defined.

(** The environment with one variable set. *)
Lemma given_unset_or_empty (v : option string) :
  given v = None <-> v = None \/ v = Some "".
Proof.
  destruct v as [[| c s] |]; simpl; split; auto; try discriminate;
    intros [H | H]; discriminate H.
Qed.

Lemma given_some (s : string) : s <> "" -> given (Some s) = Some s.
Proof.
  destruct s; [contradiction | reflexivity].
Qed.

(** X14. An environment with a non-empty base address gives a
    configuration in PAT mode when [JIRA_AUTH_TYPE] is unset, empty or
    ["pat"] and [JIRA_PAT] is not empty (the basic variables are not looked
    at), and in basic mode when [JIRA_AUTH_TYPE] is ["basic"] and both
    [JIRA_USERNAME] and [JIRA_PASSWORD] are not empty (the token is not
    looked at). *)
Theorem getConfig_complete (env : Env) (baseUrl : string) :
  env "JIRA_BASE_URL" = Some baseUrl -> baseUrl <> "" ->
  (forall token,
     env "JIRA_AUTH_TYPE" = None \/ env "JIRA_AUTH_TYPE" = Some ""
     \/ env "JIRA_AUTH_TYPE" = Some "pat" ->
     env "JIRA_PAT" = Some token -> token <> "" ->
     getConfig env = Return {| config_baseUrl := baseUrl; config_auth := pat token |})
  /\ (forall username password,
        env "JIRA_AUTH_TYPE" = Some "basic" ->
        env "JIRA_USERNAME" = Some username -> username <> "" ->
        env "JIRA_PASSWORD" = Some password -> password <> "" ->
        getConfig env
        = Return {| config_baseUrl := baseUrl;
                    config_auth := basic username password |}).
Proof.
  intros Hbase Hne.
  unfold getConfig.
  rewrite Hbase, (given_some Hne).
  split.
  - intros token Hauth Htoken Hnt.
    rewrite Htoken, (given_some Hnt).
    destruct Hauth as [-> | [-> | ->]]; reflexivity.
  - intros username password -> Hu Hnu Hp Hnp.
    rewrite Hu, Hp, (given_some Hnu), (given_some Hnp).
    reflexivity.
Qed.

Lemma getConfig_complete_witness :
  getConfig pat_env
  = Return {| config_baseUrl := "https://jira.example.com/"; config_auth := pat "secret" |}
  /\ getConfig basic_env
     = Return {| config_baseUrl := "https://jira.example.com";
                 config_auth := basic "alice" "wonderland" |}.
Proof.
  split.
  - apply (proj1 (@getConfig_complete pat_env "https://jira.example.com/"
                    eq_refl ltac:(discriminate)) "secret");
      [left; reflexivity | reflexivity | discriminate].
  - apply (proj2 (@getConfig_complete basic_env "https://jira.example.com"
                    eq_refl ltac:(discriminate)) "alice" "wonderland");
      (reflexivity || discriminate).
Defined.

(** X15. What [getConfig] throws, and in which order it looks: a missing
    or empty base address is reported first, whatever the other variables
    hold; then an authentication type that is neither ["pat"] nor ["basic"]
    is reported with its name; then the missing credential of the chosen
    mode. *)
Theorem getConfig_errors (env : Env) :
  (env "JIRA_BASE_URL" = None \/ env "JIRA_BASE_URL" = Some "" ->
   getConfig env = throw_Error _ "JIRA_BASE_URL environment variable is required")
  /\ (forall baseUrl authType,
        env "JIRA_BASE_URL" = Some baseUrl -> baseUrl <> "" ->
        env "JIRA_AUTH_TYPE" = Some authType ->
        authType <> "" -> authType <> "pat" -> authType <> "basic" ->
        getConfig env
        = throw_Error _ ("Invalid JIRA_AUTH_TYPE: " ++ authType ++ ". Must be "
                         ++ dquote ++ "pat" ++ dquote ++ " or "
                         ++ dquote ++ "basic" ++ dquote))
  /\ (forall baseUrl,
        env "JIRA_BASE_URL" = Some baseUrl -> baseUrl <> "" ->
        env "JIRA_AUTH_TYPE" = None \/ env "JIRA_AUTH_TYPE" = Some ""
        \/ env "JIRA_AUTH_TYPE" = Some "pat" ->
        env "JIRA_PAT" = None \/ env "JIRA_PAT" = Some "" ->
        getConfig env
        = throw_Error _
            "JIRA_PAT environment variable is required when using PAT authentication")
  /\ (forall baseUrl,
        env "JIRA_BASE_URL" = Some baseUrl -> baseUrl <> "" ->
        env "JIRA_AUTH_TYPE" = Some "basic" ->
        (env "JIRA_USERNAME" = None \/ env "JIRA_USERNAME" = Some "")
        \/ (env "JIRA_PASSWORD" = None \/ env "JIRA_PASSWORD" = Some "") ->
        getConfig env
        = throw_Error _
            "JIRA_USERNAME and JIRA_PASSWORD are required when using basic authentication").
Proof.
  unfold getConfig.
  split; [| split; [| split]].
  - intros H; apply given_unset_or_empty in H; rewrite H; reflexivity.
  - intros baseUrl authType Hbase Hne Hauth Hna Hnp Hnb.
    rewrite Hbase, Hauth, (given_some Hne), (given_some Hna).
    apply String.eqb_neq in Hnp, Hnb.
    rewrite Hnp, Hnb; reflexivity.
  - intros baseUrl Hbase Hne Hauth Htoken.
    apply given_unset_or_empty in Htoken.
    rewrite Hbase, (given_some Hne), Htoken.
    destruct Hauth as [-> | [-> | ->]]; reflexivity.
  - intros baseUrl Hbase Hne -> Hmissing.
    rewrite Hbase, (given_some Hne).
    cbn [given truthy_string]; cbv beta iota delta [String.eqb Ascii.eqb Bool.eqb].
    destruct Hmissing as [H | H]; apply given_unset_or_empty in H; rewrite H;
      [reflexivity | destruct (given (env "JIRA_USERNAME")); reflexivity].
Qed.

Lemma getConfig_errors_witness :
  getConfig empty_env = throw_Error _ "JIRA_BASE_URL environment variable is required"
  /\ getConfig (fun k => if String.eqb k "JIRA_AUTH_TYPE" then Some "oauth" else pat_env k)
     = throw_Error _ ("Invalid JIRA_AUTH_TYPE: oauth. Must be "
                      ++ dquote ++ "pat" ++ dquote ++ " or " ++ dquote ++ "basic" ++ dquote).
Proof.
  split.
  - apply (proj1 (getConfig_errors empty_env)); left; reflexivity.
  - apply (proj1 (proj2 (getConfig_errors
                           (fun k => if String.eqb k "JIRA_AUTH_TYPE" then Some "oauth"
                                     else pat_env k)))
             "https://jira.example.com/" "oauth");
      (reflexivity || discriminate).
Defined.

(** ** The client's address and credentials *)

(** X16. The constructor's normalisation of the base address removes one
    trailing slash and nothing else: an address that ends in a slash loses
    exactly that slash, and any other address is kept as it is. *)
Theorem strip_trailing_slash_spec (s : string) :
  strip_trailing_slash (s ++ "/") = s
  /\ ((forall t, s <> t ++ "/") -> strip_trailing_slash s = s).
Proof.
  split.
  - induction s as [| c s IH]; [reflexivity |].
    cbn [append strip_trailing_slash].
    destruct s as [| c' s']; [reflexivity |].
    cbn [append] in *.
    rewrite IH; reflexivity.
  - induction s as [| c s IH]; intros H; [reflexivity |].
    cbn [strip_trailing_slash].
    destruct s as [| c' s'].
    + destruct (Ascii.eqb_spec c "/") as [-> | _]; [| reflexivity].
      exfalso; apply (H ""); reflexivity.
    + rewrite IH; [reflexivity |].
      intros t Ht; apply (H (String c t)); cbn [append]; rewrite <- Ht; reflexivity.
Qed.

Lemma strip_trailing_slash_spec_witness :
  strip_trailing_slash "https://jira.example.com" = "https://jira.example.com".
Proof.
  apply (proj2 (strip_trailing_slash_spec "https://jira.example.com")).
  intros t H.
  assert (Hlast : forall a b, a ++ "/" = b -> String.get (String.length b - 1) b = Some "/"%char).
  { intros a b <-; induction a as [| c a IH]; [reflexivity |].
    cbn [append String.length Nat.sub].
    destruct (a ++ "/") eqn:E; [destruct a; discriminate E |].
    cbn [String.length Nat.sub String.get] in *.
    rewrite Nat.sub_0_r in IH; exact IH. }
  specialize (Hlast t _ (eq_sym H)).
  discriminate Hlast.
Defined.

(** X17. Start-up: when the configuration is returned the server serves
    with a client whose base address is the configured one without its
    trailing slash, and every request of that client goes to
    [<base>/rest/api/2<endpoint>] with the header [Authorization: Bearer
    <token>] in PAT mode and [Authorization: Basic <base64 of
    username:password>] in basic mode; when the configuration is refused the
    process writes the reason and exits with code 1. *)
Theorem startup_to_wire (host : Host) (env : Env) :
  (forall config,
     getConfig env = Return config ->
     exists jiraClient,
       main_startup env = Serving jiraClient "[Jira MCP] Configuration loaded successfully"
       /\ (forall base, config_baseUrl config = base ++ "/" -> baseUrl jiraClient = base)
       /\ ((forall t, config_baseUrl config <> t ++ "/") ->
           baseUrl jiraClient = config_baseUrl config)
       /\ forall method endpoint body,
            url (outbound jiraClient method endpoint body)
            = baseUrl jiraClient ++ "/rest/api/2" ++ endpoint
            /\ headers (outbound jiraClient method endpoint body)
               = [("Authorization",
                   match config_auth config with
                   | pat token => "Bearer " ++ token
                   | basic username password =>
                       "Basic " ++ Buffer_base64 (username ++ ":" ++ password)
                   end);
                  ("Content-Type", "application/json");
                  ("Accept", "application/json")])
  /\ (forall message,
        getConfig env = throw_Error _ message ->
        main_startup env = Exited 1 ("[Jira MCP] Configuration error: " ++ message)).
Proof.
  split.
  - intros config Hconfig.
    exists (new_JiraClient config).
    unfold main_startup; rewrite Hconfig.
    split; [reflexivity |].
    split; [| split].
    + intros base Hbase; cbn [new_JiraClient baseUrl]; rewrite Hbase.
      apply strip_trailing_slash_spec.
    + intros Hnone; cbn [new_JiraClient baseUrl].
      apply strip_trailing_slash_spec; exact Hnone.
    + intros method endpoint body; split; [reflexivity |].
      destruct config as [b [token | username password]]; reflexivity.
  - intros message Hthrow.
    unfold main_startup; rewrite Hthrow; reflexivity.
Qed.

Lemma startup_to_wire_witness :
  exists jiraClient,
    @main_startup silent_host pat_env
    = Serving jiraClient "[Jira MCP] Configuration loaded successfully"
    /\ baseUrl jiraClient = "https://jira.example.com"
    /\ url (@outbound silent_host jiraClient "GET" "/issue/PROJ-123" None)
       = "https://jira.example.com/rest/api/2/issue/PROJ-123"
    /\ lookup "Authorization"
         (headers (@outbound silent_host jiraClient "GET" "/issue/PROJ-123" None))
       = Some "Bearer secret".
Proof.
  destruct (proj1 (startup_to_wire silent_host pat_env)
              {| config_baseUrl := "https://jira.example.com/"; config_auth := pat "secret" |}
              eq_refl)
    as (jiraClient & Hmain & Hslash & _ & Hwire).
  exists jiraClient.
  pose proof (Hslash "https://jira.example.com" eq_refl) as Hbase.
  destruct (Hwire "GET" "/issue/PROJ-123" None) as [Hurl Hheaders].
  split; [exact Hmain |].
  split; [exact Hbase |].
  split.
  - rewrite Hurl, Hbase; reflexivity.
  - rewrite Hheaders; reflexivity.
Defined.
